(** * User directory service of the NestJS backend: a shallow embedding

The service (class [UsersService]), the entity it persists (class
[User]), the request objects ([CreateUserDto], [UpdateUserDto]) and the
part of the request pipeline that validates them are embedded as Rocq
functions.  The TypeORM repository the service talks to is an external
collaborator; it is modelled as an in-memory table (module
[Repository]).

Conventions.
- A JavaScript object of a class is a record whose fields are options:
  [None] is a property that is absent (or [undefined], or [null]; the
  three are not told apart).
- [async]/[await] is sequential composition: every service method takes
  the store and returns its result together with the store it leaves.
- The time the database stamps on a row ([@CreateDateColumn],
  [@UpdateDateColumn]) is the argument [now] of the mutating methods.
- A string is a sequence of bytes; the character classes of the
  password rule only contain ASCII characters. *)

From Stdlib Require Import ZArith Ascii String.
From stdpp Require Import base option list strings numbers.

Local Open Scope Z_scope.

(** ** JavaScript values that occur in the service *)

(** A [Date] object, recorded by the way it was made: from the clock of the
database, or by [new Date(s)] from a string. *)
Inductive JsDate :=
  | DateOfTime (ms : Z)
  | DateOfString (s : string).

#[global] Instance JsDate_eq_dec : EqDecision JsDate.
Proof. solve_decision. Defined.

(** What the property [dateOfBirth] of a [User] object may hold: the DTOs
declare it a string, the entity a [Date], and [Object.assign] copies the
one into the other. *)
Inductive DateOrString :=
  | RawString (s : string)
  | DateObject (d : JsDate).

#[global] Instance DateOrString_eq_dec : EqDecision DateOrString.
Proof. solve_decision. Defined.

(** Truthiness of an optional string property: [undefined] and the empty
string are falsy. *)
Definition truthy_string (v : option string) : bool :=
  match v with
  | Some s => negb (String.eqb s "")
  | None => false
  end.

(** [a || b] where [a] is an optional array: every array is truthy, the
empty one too. *)
Definition or_array {A} (a : option (list A)) (b : list A) : list A :=
  match a with
  | Some l => l
  | None => b
  end.

(** A property after an assignment from a source that may lack it: the
value of the source when it has one, the old value otherwise. *)
Definition assigned {A} (source target : option A) : option A :=
  match source with
  | Some v => Some v
  | None => target
  end.

(** ** The entity (class [User], table [users]) *)

(** A JavaScript object of class [User].  Which properties it has depends on
where it comes from: a query result has the selected columns, the object
handed to [save] by [create] has no [id] yet. *)
Module User.

Record t := mk {
  id : option Z;
  firstName : option string;
  lastName : option string;
  email : option string;
  password : option string;
  roles : option (list string);
  dateOfBirth : option DateOrString;
  phoneNumber : option string;
  isActive : option bool;
  createdAt : option JsDate;
  updatedAt : option JsDate;
}.

#[global] Instance eq_dec : EqDecision t.
Proof. solve_decision. Defined.

(** [const { password: _, ...userWithoutPassword } = user] *)
Definition without_password (u : t) : t :=
  mk (id u) (firstName u) (lastName u) (email u) None (roles u)
     (dateOfBirth u) (phoneNumber u) (isActive u) (createdAt u) (updatedAt u).

(** [Object.assign(target, source)]: every property the source has
overwrites the target's; the others stay. *)
Definition assign (target source : t) : t :=
  mk (assigned (id source) (id target))
     (assigned (firstName source) (firstName target))
     (assigned (lastName source) (lastName target))
     (assigned (email source) (email target))
     (assigned (password source) (password target))
     (assigned (roles source) (roles target))
     (assigned (dateOfBirth source) (dateOfBirth target))
     (assigned (phoneNumber source) (phoneNumber target))
     (assigned (isActive source) (isActive target))
     (assigned (createdAt source) (createdAt target))
     (assigned (updatedAt source) (updatedAt target)).

(** [user.dateOfBirth = v] *)
Definition set_dateOfBirth (v : DateOrString) (u : t) : t :=
  mk (id u) (firstName u) (lastName u) (email u) (password u) (roles u)
     (Some v) (phoneNumber u) (isActive u) (createdAt u) (updatedAt u).

(** [user.isActive = b] *)
Definition set_isActive (b : bool) (u : t) : t :=
  mk (id u) (firstName u) (lastName u) (email u) (password u) (roles u)
     (dateOfBirth u) (phoneNumber u) (Some b) (createdAt u) (updatedAt u).

End User.

(** ** The request objects *)

(** src/users/dto/create-user.dto.ts *)
Module CreateUserDto.

Record t := mk {
  firstName : string;
  lastName : string;
  email : string;
  password : string;
  roles : option (list string);
  dateOfBirth : option string;
  phoneNumber : option string;
}.

End CreateUserDto.

(** The input of [update]. *)
Module UpdateUserDto.

(** Modelled from the spec: the declaration of [UpdateUserDto]
(src/users/dto/update-user.dto.ts) is not among the sources.  The spec
gives the input of [update] as "any subset of the mutable fields
(excludes id, createdAt)"; [updatedAt] is stamped by the store.  Every
field is optional, and the decorators of a field are those of the field
of the same name in [CreateUserDto]. *)
Record t := mk {
  firstName : option string;
  lastName : option string;
  email : option string;
  password : option string;
  roles : option (list string);
  dateOfBirth : option string;
  phoneNumber : option string;
  isActive : option bool;
}.

(** The DTO as the source of [Object.assign]: its own properties. *)
Definition props (d : t) : User.t :=
  User.mk None (firstName d) (lastName d) (email d) (password d) (roles d)
          (RawString <$> dateOfBirth d) (phoneNumber d) (isActive d)
          None None.

Definition empty : t := mk None None None None None None None None.

End UpdateUserDto.

(** ** The table [users] *)

(** A row of the table, typed by the [@Column] declarations of the entity:
[dateOfBirth] and [phoneNumber] are nullable, the others are not.  The
two timestamps are milliseconds on the clock of the database.  Column
widths are not modelled. *)
Module Row.

Record t := mk {
  id : Z;
  firstName : string;
  lastName : string;
  email : string;
  password : string;
  roles : list string;
  dateOfBirth : option JsDate;
  phoneNumber : option string;
  isActive : bool;
  createdAt : Z;
  updatedAt : Z;
}.

#[global] Instance eq_dec : EqDecision t.
Proof. solve_decision. Defined.

Definition set_isActive (b : bool) (r : t) : t :=
  mk (id r) (firstName r) (lastName r) (email r) (password r) (roles r)
     (dateOfBirth r) (phoneNumber r) b (createdAt r) (updatedAt r).

Definition set_updatedAt (ms : Z) (r : t) : t :=
  mk (id r) (firstName r) (lastName r) (email r) (password r) (roles r)
     (dateOfBirth r) (phoneNumber r) (isActive r) (createdAt r) ms.


Definition set_password (s : string) (r : t) : t :=
  mk (id r) (firstName r) (lastName r) (email r) s (roles r)
     (dateOfBirth r) (phoneNumber r) (isActive r) (createdAt r) (updatedAt r).

End Row.

(** ** The repository

An in-memory model of TypeORM's [Repository<User>] on the table: the rows
in insertion order and the next value of the [id] sequence
([@PrimaryGeneratedColumn]).  It has what the service uses: [create],
[find] and [findOne] with [where] and [select], [save] and [delete].
The model follows the decorators of the entity and the interface the
specification gives the persistence collaborator: insert returning the
identifier, find by field, update by id stamping [updatedAt], delete by
id returning the number of rows affected, and a unique index on
[email]. *)
Module Repository.

Record t := mk {
  rows : list Row.t;
  nextId : Z;
}.

Definition empty : t := mk [] 1.

(** A statement the database refuses. *)
Inductive QueryError := QueryFailed.

(** The [where] objects the service passes. *)
Inductive FindWhere :=
  | WhereId (id : Z)
  | WhereEmail (email : string)
  | WhereIsActive (isActive : bool).

Definition matches (w : option FindWhere) (r : Row.t) : bool :=
  match w with
  | None => true
  | Some (WhereId i) => Row.id r =? i
  | Some (WhereEmail e) => String.eqb (Row.email r) e
  | Some (WhereIsActive b) => Bool.eqb (Row.isActive r) b
  end.

(** The columns a query returns when it has no [select]: all but those
declared [select: false], which is [password]. *)
Definition default_select : list string :=
  ["id"; "firstName"; "lastName"; "email"; "roles"; "dateOfBirth";
   "phoneNumber"; "isActive"; "createdAt"; "updatedAt"].

Definition pick {A} (select : list string) (column : string) (v : option A)
  : option A :=
  if bool_decide (column ∈ select) then v else None.

(** The object made of the selected columns of a row. *)
Definition hydrate (select : list string) (r : Row.t) : User.t :=
  User.mk (pick select "id" (Some (Row.id r)))
          (pick select "firstName" (Some (Row.firstName r)))
          (pick select "lastName" (Some (Row.lastName r)))
          (pick select "email" (Some (Row.email r)))
          (pick select "password" (Some (Row.password r)))
          (pick select "roles" (Some (Row.roles r)))
          (pick select "dateOfBirth" (DateObject <$> Row.dateOfBirth r))
          (pick select "phoneNumber" (Row.phoneNumber r))
          (pick select "isActive" (Some (Row.isActive r)))
          (pick select "createdAt" (Some (DateOfTime (Row.createdAt r))))
          (pick select "updatedAt" (Some (DateOfTime (Row.updatedAt r)))).

Definition find (w : option FindWhere) (select : list string) (repo : t)
  : list User.t :=
  hydrate select <$> List.filter (matches w) (rows repo).

Definition findOne (w : FindWhere) (select : list string) (repo : t)
  : option User.t :=
  head (find (Some w) select repo).

(** [repository.create(plain)]: a new entity object with the properties of
[plain]. *)
Definition create (plain : User.t) : User.t := plain.

(** The value a [date] column takes from a property: [None] when the
database rejects it (the empty string is no date). *)
Definition date_column (v : DateOrString) : option JsDate :=
  match v with
  | DateObject d => Some d
  | RawString s => if String.eqb s "" then None else Some (DateOfString s)
  end.

Definition email_taken (e : string) (repo : t) : bool :=
  existsb (fun r => String.eqb (Row.email r) e) (rows repo).

Definition id_taken (i : Z) (repo : t) : bool :=
  existsb (fun r => Row.id r =? i) (rows repo).

(** [INSERT]: the columns come from the properties of the entity; [roles]
and [isActive] have defaults, [id] is drawn from the sequence unless the
entity brings one, both timestamps are [now].  The statement fails when
a column that is not nullable has no value, and on the primary key and
the unique index on [email]. *)
Definition insert (now : Z) (e : User.t) (repo : t)
  : QueryError + User.t * t :=
  match User.firstName e, User.lastName e, User.email e, User.password e,
        from_option (fun v => Some <$> date_column v) (Some None)
                    (User.dateOfBirth e) with
  | Some fn, Some ln, Some em, Some pw, Some dob =>
    let i := default (nextId repo) (User.id e) in
    let rl := default ["user"] (User.roles e) in
    let act := default true (User.isActive e) in
    if id_taken i repo || email_taken em repo then inl QueryFailed
    else
      let r := Row.mk i fn ln em pw rl dob (User.phoneNumber e) act now now in
      inr (User.mk (Some i) (Some fn) (Some ln) (Some em) (Some pw) (Some rl)
                   (User.dateOfBirth e) (User.phoneNumber e) (Some act)
                   (Some (DateOfTime now)) (Some (DateOfTime now)),
           mk (rows repo ++ [r])
              (match User.id e with
               | Some _ => nextId repo
               | None => nextId repo + 1
               end))
  | _, _, _, _, _ => inl QueryFailed
  end.

(** The row after [UPDATE ... SET] with the properties the entity has; a
property it lacks leaves its column alone.  [id] and [createdAt] are not
written, and [updatedAt] is [now]: every [save] of a user of the table
stamps it ([@UpdateDateColumn]). *)
Definition merge (now : Z) (e : User.t) (dob : option JsDate) (r : Row.t)
  : Row.t :=
  Row.mk (Row.id r)
         (default (Row.firstName r) (User.firstName e))
         (default (Row.lastName r) (User.lastName e))
         (default (Row.email r) (User.email e))
         (default (Row.password r) (User.password e))
         (default (Row.roles r) (User.roles e))
         (default (Row.dateOfBirth r) (Some <$> dob))
         (default (Row.phoneNumber r) (Some <$> User.phoneNumber e))
         (default (Row.isActive r) (User.isActive e))
         (Row.createdAt r)
         now.

(** [UPDATE ... WHERE id = i], for an entity whose row [r0] is in the
table.  It fails when [dateOfBirth] is no date, and on the unique index
when [email] changes to one that is in the table. *)
Definition update (now : Z) (i : Z) (r0 : Row.t) (e : User.t) (repo : t)
  : QueryError + User.t * t :=
  match from_option (fun v => Some <$> date_column v) (Some None)
                    (User.dateOfBirth e) with
  | None => inl QueryFailed
  | Some dob =>
    let em := default (Row.email r0) (User.email e) in
    if negb (String.eqb em (Row.email r0)) && email_taken em repo
    then inl QueryFailed
    else
      inr (User.mk (User.id e) (User.firstName e) (User.lastName e)
                   (User.email e) (User.password e) (User.roles e)
                   (User.dateOfBirth e) (User.phoneNumber e)
                   (User.isActive e) (User.createdAt e)
                   (Some (DateOfTime now)),
           mk ((fun r => if Row.id r =? i then merge now e dob r else r)
                 <$> rows repo)
              (nextId repo))
  end.

(** The row with a given [id]. *)
Definition row_of (i : Z) (repo : t) : option Row.t :=
  List.find (fun r => Row.id r =? i) (rows repo).

(** [repository.save(entity)]: an entity whose [id] is in the table is
updated, any other is inserted.  The entity comes back with the
generated columns filled in.  A statement that fails leaves the table
as it was. *)
Definition save (now : Z) (e : User.t) (repo : t)
  : QueryError + User.t * t :=
  match User.id e ≫= fun i => row_of i repo with
  | Some r0 => update now (Row.id r0) r0 e repo
  | None => insert now e repo
  end.

(** [repository.delete(id)]: the rows left and [affected]. *)
Definition delete (i : Z) (repo : t) : nat * t :=
  let kept := List.filter (fun r => negb (Row.id r =? i)) (rows repo) in
  ((length (rows repo) - length kept)%nat, mk kept (nextId repo)).

End Repository.

(** ** The service (class [UsersService]) *)

(** The exceptions a method throws.  The spec calls [ConflictException]
DuplicateEmail, [BadRequestException] WeakPassword and
[NotFoundException] NotFound; [QueryFailedError] is a statement the
database refused, which the service lets through.  Messages are left
out. *)
Inductive Exception :=
  | NotFoundException
  | ConflictException
  | BadRequestException
  | QueryFailedError.

#[global] Instance Exception_eq_dec : EqDecision Exception.
Proof. solve_decision. Defined.

Inductive Result (A : Type) :=
  | Return (a : A)
  | Throw (e : Exception).

Arguments Return {A} a.
Arguments Throw {A} e.

(** The values a result hands to the caller. *)
Definition returned {A} (r : Result A) : list A :=
  match r with
  | Return a => [a]
  | Throw _ => []
  end.

Module UsersService.

(** [regex.test(s)] for a regular expression that is one character class:
some character of [s] is in the class. *)
Definition test_class (class : ascii -> bool) (s : string) : bool :=
  existsb class (list_ascii_of_string s).

Definition in_range (lo hi c : ascii) : bool :=
  ((nat_of_ascii lo <=? nat_of_ascii c)%nat
   && (nat_of_ascii c <=? nat_of_ascii hi)%nat)%bool.

(** The characters between the brackets of the fourth expression; [034] is
the double quote. *)
Definition specialChars : list ascii :=
  list_ascii_of_string "!@#$%^&*(),.?" ++ ["034"%char]
  ++ list_ascii_of_string ":{}|<>".

Definition in_chars (l : list ascii) (c : ascii) : bool :=
  existsb (Ascii.eqb c) l.

Definition isPasswordStrong (password : string) : bool :=
  let hasUpperCase := test_class (in_range "A" "Z") password in
  let hasLowerCase := test_class (in_range "a" "z") password in
  let hasNumbers := test_class (in_range "0" "9") password in
  let hasSpecialChar := test_class (in_chars specialChars) password in
  hasUpperCase && hasLowerCase && hasNumbers && hasSpecialChar.

(** In the words of the source, it returns the password as-is. *)
Definition hashPassword (password : string) : string := password.

(** The ten columns [findAll], [findOne], [findByEmail] and
[findByActiveStatus] select. *)
Definition public_select : list string :=
  ["id"; "firstName"; "lastName"; "email"; "dateOfBirth"; "phoneNumber";
   "isActive"; "createdAt"; "updatedAt"; "roles"].

(** The eleven columns [findByEmailForAuth] selects. *)
Definition auth_select : list string :=
  ["id"; "firstName"; "lastName"; "email"; "password"; "dateOfBirth";
   "phoneNumber"; "isActive"; "createdAt"; "updatedAt"; "roles"].

(** [roles] is [createUserDto.roles || ['user']], [dateOfBirth] is
[createUserDto.dateOfBirth ? new Date(createUserDto.dateOfBirth) :
undefined]; the other properties are those of the DTO, with the password
replaced by its hash. *)
Definition create (now : Z) (createUserDto : CreateUserDto.t)
    (repo : Repository.t) : Result User.t * Repository.t :=
  let existingUser :=
    Repository.findOne
      (Repository.WhereEmail (CreateUserDto.email createUserDto))
      Repository.default_select repo in
  if bool_decide (is_Some existingUser) then (Throw ConflictException, repo)
  else if negb (isPasswordStrong (CreateUserDto.password createUserDto))
  then (Throw BadRequestException, repo)
  else
    let hashedPassword :=
      hashPassword (CreateUserDto.password createUserDto) in
    let user := Repository.create
      (User.mk None
         (Some (CreateUserDto.firstName createUserDto))
         (Some (CreateUserDto.lastName createUserDto))
         (Some (CreateUserDto.email createUserDto))
         (Some hashedPassword)
         (Some (or_array (CreateUserDto.roles createUserDto) ["user"]))
         (if truthy_string (CreateUserDto.dateOfBirth createUserDto)
          then (fun s => DateObject (DateOfString s))
                 <$> CreateUserDto.dateOfBirth createUserDto
          else None)
         (CreateUserDto.phoneNumber createUserDto)
         None None None) in
    match Repository.save now user repo with
    | inl _ => (Throw QueryFailedError, repo)
    | inr (savedUser, repo') =>
      (Return (User.without_password savedUser), repo')
    end.

Definition findAll (repo : Repository.t) : list User.t :=
  Repository.find None public_select repo.

Definition findOne (id : Z) (repo : Repository.t) : Result User.t :=
  match Repository.findOne (Repository.WhereId id) public_select repo with
  | None => Throw NotFoundException
  | Some user => Return user
  end.

Definition findByEmail (email : string) (repo : Repository.t)
  : option User.t :=
  Repository.findOne (Repository.WhereEmail email) public_select repo.

Definition findByEmailForAuth (email : string) (repo : Repository.t)
  : option User.t :=
  Repository.findOne (Repository.WhereEmail email) auth_select repo.

(** The lookup of the new email runs when [updateUserDto.email &&
updateUserDto.email !== user.email]; [dateOfBirth] is replaced by a
[Date] when [updateUserDto.dateOfBirth] is truthy. *)
Definition update (now : Z) (id : Z) (updateUserDto : UpdateUserDto.t)
    (repo : Repository.t) : Result User.t * Repository.t :=
  match Repository.findOne (Repository.WhereId id)
          Repository.default_select repo with
  | None => (Throw NotFoundException, repo)
  | Some user =>
    let conflict :=
      match UpdateUserDto.email updateUserDto with
      | Some email =>
        truthy_string (Some email)
        && negb (bool_decide (Some email = User.email user))
        && bool_decide (is_Some (Repository.findOne
             (Repository.WhereEmail email) Repository.default_select repo))
      | None => false
      end in
    if conflict
    then (Throw ConflictException, repo)
    else
      let user := User.assign user (UpdateUserDto.props updateUserDto) in
      let user :=
        match UpdateUserDto.dateOfBirth updateUserDto with
        | Some s =>
          if truthy_string (Some s)
          then User.set_dateOfBirth (DateObject (DateOfString s)) user
          else user
        | None => user
        end in
      match Repository.save now user repo with
      | inl _ => (Throw QueryFailedError, repo)
      | inr (updatedUser, repo') =>
        (Return (User.without_password updatedUser), repo')
      end
  end.

Definition remove (id : Z) (repo : Repository.t)
  : Result unit * Repository.t :=
  let '(affected, repo') := Repository.delete id repo in
  if (affected =? 0)%nat then (Throw NotFoundException, repo')
  else (Return tt, repo').

Definition deactivate (now : Z) (id : Z) (repo : Repository.t)
  : Result User.t * Repository.t :=
  match Repository.findOne (Repository.WhereId id)
          Repository.default_select repo with
  | None => (Throw NotFoundException, repo)
  | Some user =>
    let user := User.set_isActive false user in
    match Repository.save now user repo with
    | inl _ => (Throw QueryFailedError, repo)
    | inr (updatedUser, repo') =>
      (Return (User.without_password updatedUser), repo')
    end
  end.

Definition activate (now : Z) (id : Z) (repo : Repository.t)
  : Result User.t * Repository.t :=
  match Repository.findOne (Repository.WhereId id)
          Repository.default_select repo with
  | None => (Throw NotFoundException, repo)
  | Some user =>
    let user := User.set_isActive true user in
    match Repository.save now user repo with
    | inl _ => (Throw QueryFailedError, repo)
    | inr (updatedUser, repo') =>
      (Return (User.without_password updatedUser), repo')
    end
  end.

Definition findByActiveStatus (active : bool) (repo : Repository.t)
  : list User.t :=
  Repository.find (Some (Repository.WhereIsActive active)) public_select
                  repo.

End UsersService.

(** ** The request pipeline (src/main.ts, class [UsersController]) *)

(** The decorators of class-validator on the DTOs, as the global
[ValidationPipe] applies them.  [@IsString] and [@IsArray] hold by the
types of the records.  [@IsEmail] and [@IsDateString] are predicates of
the validator library and are left out: the pipeline modelled here lets
through every request the real one does. *)
Module ValidationPipe.

Definition isNotEmpty (s : string) : bool := negb (String.eqb s "").

Definition minLength (n : nat) (s : string) : bool :=
  (n <=? String.length s)%nat.

Definition isIn (values : list string) (v : string) : bool :=
  bool_decide (v ∈ values).

(** [@IsOptional()]: a property that is missing is not validated. *)
Definition isOptional {A} (valid : A -> bool) (v : option A) : bool :=
  from_option valid true v.

(** The list in [@IsIn(['user', 'admin', 'moderator'], { each: true })]. *)
Definition allowedRoles : list string := ["user"; "admin"; "moderator"].

Definition validName (s : string) : bool := isNotEmpty s && minLength 2 s.

Definition validPassword (s : string) : bool :=
  isNotEmpty s && minLength 8 s.

Definition validRoles (l : list string) : bool :=
  forallb (isIn allowedRoles) l.

Definition validCreateUserDto (d : CreateUserDto.t) : bool :=
  validName (CreateUserDto.firstName d)
  && validName (CreateUserDto.lastName d)
  && isNotEmpty (CreateUserDto.email d)
  && validPassword (CreateUserDto.password d)
  && isOptional validRoles (CreateUserDto.roles d).

(** Modelled from the spec: the decorators of [UpdateUserDto], see the
record. *)
Definition validUpdateUserDto (d : UpdateUserDto.t) : bool :=
  isOptional validName (UpdateUserDto.firstName d)
  && isOptional validName (UpdateUserDto.lastName d)
  && isOptional isNotEmpty (UpdateUserDto.email d)
  && isOptional validPassword (UpdateUserDto.password d)
  && isOptional validRoles (UpdateUserDto.roles d).

End ValidationPipe.

(** The handlers that write: the body goes through the pipe, which answers
400 Bad Request itself when it is not valid, then to the service. *)
Module UsersController.

Definition create (now : Z) (createUserDto : CreateUserDto.t)
    (repo : Repository.t) : Result User.t * Repository.t :=
  if ValidationPipe.validCreateUserDto createUserDto
  then UsersService.create now createUserDto repo
  else (Throw BadRequestException, repo).

Definition update (now : Z) (id : Z) (updateUserDto : UpdateUserDto.t)
    (repo : Repository.t) : Result User.t * Repository.t :=
  if ValidationPipe.validUpdateUserDto updateUserDto
  then UsersService.update now id updateUserDto repo
  else (Throw BadRequestException, repo).

(** [GET /users?active=...]: the filter runs when the query parameter is
there ([active !== undefined]). *)
Definition findAll (active : option bool) (repo : Repository.t)
  : list User.t :=
  match active with
  | Some active => UsersService.findByActiveStatus active repo
  | None => UsersService.findAll repo
  end.

(** [GET /users/email/:email]: the handler turns the [null] of the service
into a [NotFoundException]. *)
Definition findByEmail (email : string) (repo : Repository.t)
  : Result User.t :=
  match UsersService.findByEmail email repo with
  | None => Throw NotFoundException
  | Some user => Return user
  end.

(** A request that may change the table. *)
Inductive Request :=
  | Post (body : CreateUserDto.t)
  | Patch (id : Z) (body : UpdateUserDto.t)
  | Delete (id : Z)
  | PatchDeactivate (id : Z)
  | PatchActivate (id : Z).

(** The table after a request served at time [now]. *)
Definition serve (now : Z) (req : Request) (repo : Repository.t)
  : Repository.t :=
  match req with
  | Post body => snd (create now body repo)
  | Patch id body => snd (update now id body repo)
  | Delete id => snd (UsersService.remove id repo)
  | PatchDeactivate id => snd (UsersService.deactivate now id repo)
  | PatchActivate id => snd (UsersService.activate now id repo)
  end.

(** The table after a sequence of requests, each with its time. *)
Definition serve_all (reqs : list (Z * Request)) (repo : Repository.t)
  : Repository.t :=
  foldl (fun repo '(now, req) => serve now req repo) repo reqs.

End UsersController.

(** ** The vocabulary of the specification *)

Module Spec.







(** Some user of the table has the email. *)
Definition email_in_use (email : string) (repo : Repository.t) : Prop :=
  exists r, r ∈ Repository.rows repo /\ Row.email r = email.

(** Some user of the table has the id. *)
Definition exists_id (id : Z) (repo : Repository.t) : Prop :=
  exists r, r ∈ Repository.rows repo /\ Row.id r = id.

(** The value handed to the caller has no [password] property. *)
Definition no_password (u : User.t) : Prop := User.password u = None.

(** The identifiers handed out so far are behind the sequence: the next
insert draws a fresh one. *)
Definition ids_behind_sequence (repo : Repository.t) : Prop :=
  Forall (fun r => Row.id r < Repository.nextId repo) (Repository.rows repo).

(** No user of the table has an empty list of roles. *)
Definition roles_nonempty (repo : Repository.t) : Prop :=
  Forall (fun r => Row.roles r <> []) (Repository.rows repo).

(** The request does not carry a list of roles that is empty. *)
Definition no_empty_roles (req : UsersController.Request) : Prop :=
  match req with
  | UsersController.Post body => CreateUserDto.roles body <> Some []
  | UsersController.Patch _ body => UpdateUserDto.roles body <> Some []
  | _ => True
  end.

(** A field after an update with an optional new value: the new value when
there is one, the old value otherwise. *)
Definition overwritten {A} (new : option A) (old result : A) : Prop :=
  match new with
  | Some v => result = v
  | None => result = old
  end.


(** [deactivate] and [activate] differ in the flag they set; this is either
of them, for the proofs that treat both. *)
Definition set_active (b : bool) : Z -> Z -> Repository.t
    -> Result User.t * Repository.t :=
  if b then UsersService.activate else UsersService.deactivate.

(** The row a successful [create] leaves in the table, for the identifier
the sequence gave: active, [roles] defaulted, both timestamps [now]. *)
Definition created_row (now : Z) (d : CreateUserDto.t) (id : Z) : Row.t :=
  Row.mk id (CreateUserDto.firstName d) (CreateUserDto.lastName d)
         (CreateUserDto.email d) (CreateUserDto.password d)
         (default ["user"] (CreateUserDto.roles d))
         (if truthy_string (CreateUserDto.dateOfBirth d)
          then DateOfString <$> CreateUserDto.dateOfBirth d else None)
         (CreateUserDto.phoneNumber d) true now now.

(** No two users of the table have the same identifier. *)
Definition ids_unique (repo : Repository.t) : Prop :=
  NoDup (Row.id <$> Repository.rows repo).

(** No two users of the table have the same email. *)
Definition emails_unique (repo : Repository.t) : Prop :=
  NoDup (Row.email <$> Repository.rows repo).

(** The three facts about keys that every table the requests reach has. *)
Definition keys_sound (repo : Repository.t) : Prop :=
  ids_behind_sequence repo /\ ids_unique repo /\ emails_unique repo.

(** The times of the requests do not run backwards, from [t] on. *)
Fixpoint clock_from (t : Z) (reqs : list (Z * UsersController.Request))
  : Prop :=
  match reqs with
  | [] => True
  | (now, _) :: reqs => t <= now /\ clock_from now reqs
  end.

(** The time of the last request, [t] when there is none. *)
Definition last_time (t : Z) (reqs : list (Z * UsersController.Request))
  : Z :=
  foldl (fun _ tr => fst tr) t reqs.

(** Every user was created no later than it was last updated, and that no
later than [t]. *)
Definition timestamps_ordered (t : Z) (repo : Repository.t) : Prop :=
  Forall (fun r => Row.createdAt r <= Row.updatedAt r <= t)
         (Repository.rows repo).

End Spec.

(** ** Example data

The request of the test suite of the service and what it leaves behind. *)
Module Examples.

(** The input of the tests of [create]. *)
Definition john : CreateUserDto.t :=
  CreateUserDto.mk "John" "Doe" "john.doe@example.com" "SecurePass123!"
                   None (Some "1990-01-01") (Some "+1234567890").

(** The row and the table after [john] is created at time 1000 on the empty
table, and the user handed back. *)
Definition row_john : Row.t :=
  Row.mk 1 "John" "Doe" "john.doe@example.com" "SecurePass123!" ["user"]
         (Some (DateOfString "1990-01-01")) (Some "+1234567890") true
         1000 1000.

Definition repo_john : Repository.t := Repository.mk [row_john] 2.

Definition view_john : User.t :=
  User.mk (Some 1) (Some "John") (Some "Doe") (Some "john.doe@example.com")
          None (Some ["user"])
          (Some (DateObject (DateOfString "1990-01-01")))
          (Some "+1234567890") (Some true)
          (Some (DateOfTime 1000)) (Some (DateOfTime 1000)).

(** A request body whose list of roles is there and empty. *)
Definition john_no_roles : CreateUserDto.t :=
  CreateUserDto.mk "John" "Doe" "john.doe@example.com" "SecurePass123!"
                   (Some []) None None.

(** A request body with a role that is not one of the three. *)
Definition john_root : CreateUserDto.t :=
  CreateUserDto.mk "John" "Doe" "john.doe@example.com" "SecurePass123!"
                   (Some ["user"; "root"]) None None.

(** A day of requests on the table. *)
Definition requests : list (Z * UsersController.Request) :=
  [(1000, UsersController.Post john);
   (2000, UsersController.Patch 1
            (UpdateUserDto.mk None None None None (Some ["admin"]) None None
                              None));
   (3000, UsersController.PatchDeactivate 1);
   (4000, UsersController.Post john_root);
   (5000, UsersController.Delete 7)].

(** A second user, and the table with both. *)
Definition row_jane : Row.t :=
  Row.mk 2 "Jane" "Smith" "jane.smith@example.com" "OtherPass456?"
         ["admin"] None None false 1500 1800.

Definition repo_two : Repository.t := Repository.mk [row_john; row_jane] 3.

(** An update that takes the email of the first user. *)
Definition take_johns_email : UpdateUserDto.t :=
  UpdateUserDto.mk None None (Some "john.doe@example.com") None None None
                   None None.

(** An update to an email no user has. *)
Definition new_email : UpdateUserDto.t :=
  UpdateUserDto.mk None None (Some "jane@example.org") None None None None
                   None.

End Examples.

(** ** Proof automation *)

(** An equation between two boolean functions of a character, by running
both on the 256 characters. *)
Ltac by_cases_on_ascii c :=
  destruct c as [[] [] [] [] [] [] [] []]; vm_compute; reflexivity.


(** * Properties *)

(** ** The repository *)

Section RepositoryFacts.

Import Repository.

Lemma head_fmap_filter {A B} (f : A -> B) (p : A -> bool) (l : list A) :
  head (f <$> List.filter p l) = f <$> List.find p l.
Proof.
  induction l as [|a l IH]; [reflexivity|].
  simpl. destruct (p a); [reflexivity|exact IH].
Qed.

Lemma findOne_find (w : FindWhere) (select : list string) (repo : t) :
  findOne w select repo
  = hydrate select <$> List.find (matches (Some w)) (rows repo).
Proof. apply head_fmap_filter. Qed.

Lemma findOne_id (i : Z) (select : list string) (repo : t) :
  findOne (WhereId i) select repo = hydrate select <$> row_of i repo.
Proof. apply findOne_find. Qed.

Lemma row_of_Some (i : Z) (repo : t) (r : Row.t) :
  row_of i repo = Some r -> r ∈ rows repo /\ Row.id r = i.
Proof.
  unfold row_of. intros H. apply find_some in H as [Hin Hid].
  split; [by apply list_elem_of_In | lia].
Qed.

Lemma row_of_None (i : Z) (repo : t) :
  row_of i repo = None <-> ~ Spec.exists_id i repo.
Proof.
  unfold row_of, Spec.exists_id. split.
  - intros H [r [Hin Hid]]. apply list_elem_of_In in Hin.
    pose proof (find_none _ _ H r Hin) as Hn. simpl in Hn. lia.
  - intros Hn. destruct (List.find _ _) as [r|] eqn:E; [|reflexivity].
    apply find_some in E as [Hin Hid]. exfalso. apply Hn. exists r.
    split; [by apply list_elem_of_In | lia].
Qed.

Lemma email_taken_true (e : string) (repo : t) :
  email_taken e repo = true <-> Spec.email_in_use e repo.
Proof.
  unfold email_taken, Spec.email_in_use. rewrite existsb_exists.
  split; intros [r [Hin He]]; exists r.
  - split; [by apply list_elem_of_In | by apply String.eqb_eq].
  - split; [by apply list_elem_of_In | by apply String.eqb_eq].
Qed.

Lemma findOne_email_is_Some (e : string) (select : list string) (repo : t) :
  bool_decide (is_Some (findOne (WhereEmail e) select repo))
  = email_taken e repo.
Proof.
  rewrite findOne_find. unfold email_taken. simpl.
  induction (rows repo) as [|r l IH]; [reflexivity|].
  simpl. destruct (String.eqb (Row.email r) e); [reflexivity|exact IH].
Qed.

Lemma id_taken_false (i : Z) (repo : t) :
  id_taken i repo = false <-> row_of i repo = None.
Proof.
  unfold id_taken, row_of.
  induction (rows repo) as [|r l IH]; [done|].
  simpl. destruct (Row.id r =? i); [done|exact IH].
Qed.


Lemma find_fmap_inv {A} (p : A -> bool) (g : A -> A) (l : list A) :
  (forall a, p (g a) = p a) ->
  List.find p (g <$> l) = g <$> List.find p l.
Proof.
  intros Hg. induction l as [|a l IH]; [reflexivity|].
  simpl. rewrite Hg. destruct (p a); [reflexivity|exact IH].
Qed.

End RepositoryFacts.

(** ** What the service hands back *)

Section Returned.

Lemma hydrate_public_password (r : Row.t) :
  User.password (Repository.hydrate UsersService.public_select r) = None.
Proof. reflexivity. Qed.

Lemma find_public_no_password w (repo : Repository.t) :
  Forall Spec.no_password
         (Repository.find w UsersService.public_select repo).
Proof.
  unfold Repository.find. apply Forall_fmap, Forall_forall.
  intros r _. apply hydrate_public_password.
Qed.

Lemma findOne_public_no_password w (repo : Repository.t) (u : User.t) :
  Repository.findOne w UsersService.public_select repo = Some u ->
  Spec.no_password u.
Proof.
  rewrite findOne_find. 
  destruct (List.find _ _); intros [= <-]. apply hydrate_public_password.
Qed.

End Returned.

(** C1. Whatever [create], [findAll], [findByActiveStatus], [findOne],
[findByEmail], [update], [deactivate] and [activate] hand to the caller
has no [password] property, the values handed back right after a
successful [create] or [update] included. *)
Theorem password_never_returned
    (now id : Z) (active : bool) (email : string)
    (createUserDto : CreateUserDto.t) (updateUserDto : UpdateUserDto.t)
    (repo : Repository.t) :
  Forall Spec.no_password
         (returned (fst (UsersService.create now createUserDto repo)))
  /\ Forall Spec.no_password (UsersService.findAll repo)
  /\ Forall Spec.no_password (UsersService.findByActiveStatus active repo)
  /\ Forall Spec.no_password (returned (UsersService.findOne id repo))
  /\ Forall Spec.no_password
            (option_list (UsersService.findByEmail email repo))
  /\ Forall Spec.no_password
            (returned (fst (UsersService.update now id updateUserDto repo)))
  /\ Forall Spec.no_password
            (returned (fst (UsersService.deactivate now id repo)))
  /\ Forall Spec.no_password
            (returned (fst (UsersService.activate now id repo))).
Proof.
  repeat split.
  - unfold UsersService.create.
    repeat case_match; simpl; repeat constructor.
  - apply find_public_no_password.
  - apply find_public_no_password.
  - unfold UsersService.findOne.
    destruct (Repository.findOne _ _ _) eqn:E; simpl; [|constructor].
    repeat constructor. by eapply findOne_public_no_password.
  - unfold UsersService.findByEmail.
    destruct (Repository.findOne _ _ _) eqn:E; simpl; [|constructor].
    repeat constructor. by eapply findOne_public_no_password.
  - unfold UsersService.update.
    repeat case_match; simpl; repeat constructor.
  - unfold UsersService.deactivate.
    repeat case_match; simpl; repeat constructor.
  - unfold UsersService.activate.
    repeat case_match; simpl; repeat constructor.
Qed.

(** ** The password rule *)

Section PasswordRule.

Import UsersService.







End PasswordRule.

(** ** [create] *)

Section Create.

Import UsersService.

(** The four ways [create] ends. *)
Lemma create_cases (now : Z) (d : CreateUserDto.t) (repo : Repository.t) :
  create now d repo =
  if Repository.email_taken (CreateUserDto.email d) repo
  then (Throw ConflictException, repo)
  else if negb (isPasswordStrong (CreateUserDto.password d))
  then (Throw BadRequestException, repo)
  else if Repository.id_taken (Repository.nextId repo) repo
  then (Throw QueryFailedError, repo)
  else
    let r := Spec.created_row now d (Repository.nextId repo) in
    (Return (Repository.hydrate public_select r),
     Repository.mk (Repository.rows repo ++ [r])
                   (Repository.nextId repo + 1)).
Proof.
  unfold create. rewrite findOne_email_is_Some.
  destruct (Repository.email_taken _ repo) eqn:Hem; [reflexivity|].
  destruct (isPasswordStrong _); [|reflexivity]. simpl.
  unfold Repository.save, Repository.insert, Repository.create. simpl.
  unfold Spec.created_row.
  destruct d as [fn ln em pw rl dob ph]; simpl in *. rewrite Hem.
  destruct dob as [s|]; simpl.
  - destruct (String.eqb s ""); simpl;
      destruct (Repository.id_taken _ repo); simpl; try reflexivity;
      destruct rl; reflexivity.
  - destruct (Repository.id_taken _ repo); simpl; try reflexivity;
      destruct rl; reflexivity.
Qed.


End Create.

Section CreateClaims.

Import UsersService.

Lemma create_Return (now : Z) (d : CreateUserDto.t)
    (repo repo' : Repository.t) (u : User.t) :
  create now d repo = (Return u, repo') ->
  let r := Spec.created_row now d (Repository.nextId repo) in
  Repository.email_taken (CreateUserDto.email d) repo = false
  /\ Repository.id_taken (Repository.nextId repo) repo = false
  /\ u = Repository.hydrate public_select r
  /\ repo' = Repository.mk (Repository.rows repo ++ [r])
                           (Repository.nextId repo + 1).
Proof.
  rewrite create_cases. simpl.
  destruct (Repository.email_taken _ repo); [discriminate|].
  destruct (negb _); [discriminate|].
  destruct (Repository.id_taken _ repo); [discriminate|].
  intros [= <- <-]. done.
Qed.




(** C4. When a user of the table has the email, [create] fails with
DuplicateEmail (a [ConflictException]) and leaves the table as it was:
[findAll] returns the users it returned before. *)
Theorem create_duplicate_email
    (now : Z) (d : CreateUserDto.t) (repo : Repository.t) :
  Spec.email_in_use (CreateUserDto.email d) repo ->
  create now d repo = (Throw ConflictException, repo)
  /\ findAll (snd (create now d repo)) = findAll repo.
Proof.
  intros Hused. apply email_taken_true in Hused.
  rewrite create_cases, Hused. done.
Qed.

Lemma create_duplicate_email_witness :
  create 2000 Examples.john Examples.repo_john
  = (Throw ConflictException, Examples.repo_john)
  /\ findAll (snd (create 2000 Examples.john Examples.repo_john))
     = findAll Examples.repo_john.
Proof.
  apply (create_duplicate_email 2000 Examples.john Examples.repo_john).
  exists Examples.row_john. split; [|reflexivity].
  vm_compute. constructor.
Defined.





End CreateClaims.

(** ** The identifier sequence

In every table the requests can reach, the identifiers are behind the
sequence. *)

Section Sequence.

Lemma save_ids_behind_sequence (now : Z) (e u : User.t)
    (repo repo' : Repository.t) :
  User.id e = None
  \/ is_Some (User.id e ≫= fun i => Repository.row_of i repo) ->
  Spec.ids_behind_sequence repo ->
  Repository.save now e repo = inr (u, repo') ->
  Spec.ids_behind_sequence repo'.
Proof.
  intros He Hinv. unfold Repository.save.
  destruct (User.id e ≫= _) as [r0|] eqn:Hr0.
  - unfold Repository.update.
    destruct (from_option _ _ _) as [dob|]; [|discriminate].
    destruct (_ && _); [discriminate|]. intros [= _ <-].
    unfold Spec.ids_behind_sequence in *. simpl.
    apply Forall_fmap. eapply List.Forall_impl; [|exact Hinv].
    intros r Hr. simpl. by destruct (Row.id r =? Row.id r0).
  - destruct He as [He|[? ?]]; [|discriminate].
    unfold Repository.insert. rewrite He.
    intros H. repeat case_match; try discriminate; injection H as _ <-;
      unfold Spec.ids_behind_sequence in *; simpl;
      (apply Forall_app; split;
         [eapply List.Forall_impl; [|exact Hinv]; simpl; intros; lia
         |constructor; [simpl; lia|constructor]]).
Qed.

Lemma loaded_in_table (id : Z) (repo : Repository.t) (user : User.t) :
  Repository.findOne (Repository.WhereId id) Repository.default_select repo
  = Some user ->
  is_Some (User.id user ≫= fun i => Repository.row_of i repo).
Proof.
  rewrite findOne_id.
  destruct (Repository.row_of id repo) as [r|] eqn:Hrow; [|discriminate].
  intros [= <-]. pose proof (row_of_Some _ _ _ Hrow) as [_ <-].
  simpl. rewrite Hrow. by eexists.
Qed.

Lemma serve_ids_behind_sequence (now : Z) (req : UsersController.Request)
    (repo : Repository.t) :
  Spec.ids_behind_sequence repo ->
  Spec.ids_behind_sequence (UsersController.serve now req repo).
Proof.
  intros Hinv. destruct req as [body|id body|id|id|id]; simpl.
  - unfold UsersController.create.
    destruct (ValidationPipe.validCreateUserDto body); [|exact Hinv].
    unfold UsersService.create.
    destruct (bool_decide _); [exact Hinv|].
    destruct (negb _); [exact Hinv|].
    destruct (Repository.save _ _ _) as [|[u repo']] eqn:Hs; [exact Hinv|].
    simpl. eapply save_ids_behind_sequence; [|exact Hinv|exact Hs].
    by left.
  - unfold UsersController.update.
    destruct (ValidationPipe.validUpdateUserDto body); [|exact Hinv].
    unfold UsersService.update.
    destruct (Repository.findOne _ _ _) as [user|] eqn:Hload;
      [|exact Hinv].
    apply loaded_in_table in Hload.
    match goal with |- context [if ?c then _ else _] => destruct c end;
      [exact Hinv|].
    destruct (Repository.save _ _ _) as [|[u repo']] eqn:Hs; [exact Hinv|].
    simpl. eapply save_ids_behind_sequence; [|exact Hinv|exact Hs].
    right. destruct user as [[i|] ? ? ? ? ? ? ? ? ? ?];
      [|by destruct Hload].
    destruct (UpdateUserDto.dateOfBirth body) as [s|]; [|exact Hload].
    destruct (truthy_string (Some s)); exact Hload.
  - unfold UsersService.remove, Repository.delete.
    destruct (_ =? _)%nat; simpl; unfold Spec.ids_behind_sequence in *;
      simpl; rewrite List.Forall_forall in *; intros r Hr; apply Hinv;
      by apply filter_In in Hr as [Hr _].
  - unfold UsersService.deactivate.
    destruct (Repository.findOne _ _ _) as [user|] eqn:Hload;
      [|exact Hinv].
    apply loaded_in_table in Hload.
    destruct (Repository.save _ _ _) as [|[u repo']] eqn:Hs; [exact Hinv|].
    simpl. eapply save_ids_behind_sequence; [|exact Hinv|exact Hs].
    by right.
  - unfold UsersService.activate.
    destruct (Repository.findOne _ _ _) as [user|] eqn:Hload;
      [|exact Hinv].
    apply loaded_in_table in Hload.
    destruct (Repository.save _ _ _) as [|[u repo']] eqn:Hs; [exact Hinv|].
    simpl. eapply save_ids_behind_sequence; [|exact Hinv|exact Hs].
    by right.
Qed.

Lemma reachable_ids_behind_sequence
    (reqs : list (Z * UsersController.Request)) :
  Spec.ids_behind_sequence (UsersController.serve_all reqs Repository.empty).
Proof.
  assert (forall repo, Spec.ids_behind_sequence repo ->
            Spec.ids_behind_sequence (UsersController.serve_all reqs repo))
    as H.
  { induction reqs as [|[now req] reqs IH]; intros repo Hinv; [exact Hinv|].
    simpl. apply IH. by apply serve_ids_behind_sequence. }
  apply H. constructor.
Qed.

End Sequence.

(** ** [remove] *)

Section Remove.

Import UsersService.


Lemma find_filter_negb {A} (p : A -> bool) (l : list A) :
  List.find p (List.filter (fun a => negb (p a)) l) = None.
Proof.
  induction l as [|a l IH]; [reflexivity|].
  simpl. destruct (p a) eqn:E; simpl; [exact IH|]. by rewrite E.
Qed.




End Remove.

(** ** Saving a user that was loaded *)

Section Loaded.

Import UsersService.

Lemma hydrate_default (r : Row.t) :
  Repository.hydrate Repository.default_select r
  = User.mk (Some (Row.id r)) (Some (Row.firstName r))
            (Some (Row.lastName r)) (Some (Row.email r)) None
            (Some (Row.roles r)) (DateObject <$> Row.dateOfBirth r)
            (Row.phoneNumber r) (Some (Row.isActive r))
            (Some (DateOfTime (Row.createdAt r)))
            (Some (DateOfTime (Row.updatedAt r))).
Proof. reflexivity. Qed.

Lemma hydrate_public_default (r : Row.t) :
  Repository.hydrate public_select r
  = Repository.hydrate Repository.default_select r.
Proof. reflexivity. Qed.

Lemma save_loaded (now : Z) (e : User.t) (repo : Repository.t)
    (r : Row.t) :
  Repository.row_of (Row.id r) repo = Some r ->
  User.id e = Some (Row.id r) ->
  Repository.save now e repo = Repository.update now (Row.id r) r e repo.
Proof.
  intros Hrow Hid. unfold Repository.save. rewrite Hid. simpl.
  by rewrite Hrow.
Qed.

(** The rows after [UPDATE ... WHERE id = i]. *)
Lemma row_of_updated (i j : Z) (g : Row.t -> Row.t) (repo : Repository.t)
    (n : Z) :
  (forall r, Row.id (g r) = Row.id r) ->
  Repository.row_of j
    (Repository.mk ((fun r => if Row.id r =? i then g r else r)
                      <$> Repository.rows repo) n)
  = (fun r => if Row.id r =? i then g r else r) <$> Repository.row_of j repo.
Proof.
  intros Hg. unfold Repository.row_of. simpl. apply find_fmap_inv.
  intros r. destruct (Row.id r =? i); [by rewrite Hg | done].
Qed.

Lemma row_of_updated_other (i j : Z) (g : Row.t -> Row.t)
    (repo : Repository.t) (n : Z) :
  (forall r, Row.id (g r) = Row.id r) -> j <> i ->
  Repository.row_of j
    (Repository.mk ((fun r => if Row.id r =? i then g r else r)
                      <$> Repository.rows repo) n)
  = Repository.row_of j repo.
Proof.
  intros Hg Hne. rewrite row_of_updated by done.
  destruct (Repository.row_of j repo) as [r|] eqn:E; [|done].
  apply row_of_Some in E as [_ <-]. simpl.
  by destruct (Z.eqb_spec (Row.id r) i).
Qed.

(** [deactivate] and [activate] on a user of the table. *)
Lemma set_active_Return (b : bool) (now id : Z) (repo : Repository.t)
    (r : Row.t) :
  Repository.row_of id repo = Some r ->
  let r' := Row.set_updatedAt now (Row.set_isActive b r) in
  exists repo',
    Spec.set_active b now id repo
    = (Return (Repository.hydrate public_select r'), repo')
    /\ Repository.row_of id repo' = Some r'
    /\ forall j, j <> id ->
         Repository.row_of j repo' = Repository.row_of j repo.
Proof.
  intros Hrow. pose proof (row_of_Some _ _ _ Hrow) as [_ Hid]. subst id.
  assert (Spec.set_active b now (Row.id r) repo
          = match Repository.findOne (Repository.WhereId (Row.id r))
                    Repository.default_select repo with
            | None => (Throw NotFoundException, repo)
            | Some user =>
              match Repository.save now (User.set_isActive b user) repo with
              | inl _ => (Throw QueryFailedError, repo)
              | inr (u, repo') => (Return (User.without_password u), repo')
              end
            end) as -> by (by destruct b).
  rewrite findOne_id, Hrow. simpl. rewrite hydrate_default.
  rewrite (save_loaded _ _ _ r) by done.
  unfold Repository.update. simpl.
  assert (from_option (fun v => Some <$> Repository.date_column v)
            (Some None) (DateObject <$> Row.dateOfBirth r)
          = Some (Row.dateOfBirth r)) as ->
    by (by destruct (Row.dateOfBirth r)).
  rewrite String.eqb_refl. simpl. eexists. split; [reflexivity|].
  split.
  - rewrite row_of_updated by done. rewrite Hrow. simpl.
    rewrite Z.eqb_refl. f_equal. destruct r as [? ? ? ? ? ? dob ph ? ? ?].
    by destruct dob, ph.
  - intros j Hj. by apply row_of_updated_other.
Qed.

End Loaded.

(** ** [update] *)

Section Update.

Import UsersService.


End Update.

Section UpdateClaims.

Import UsersService.


Lemma overwritten_None {A} (old result : A) :
  Spec.overwritten None old result -> result = old.
Proof. done. Qed.





End UpdateClaims.

(** ** [deactivate] and [activate] *)

Section Activation.

Import UsersService.



End Activation.

(** ** Roles *)

Section Roles.

Lemma save_roles_nonempty (now : Z) (e u : User.t)
    (repo repo' : Repository.t) :
  User.roles e <> Some [] ->
  Spec.roles_nonempty repo ->
  Repository.save now e repo = inr (u, repo') ->
  Spec.roles_nonempty repo'.
Proof.
  intros He Hinv. unfold Repository.save.
  destruct (User.id e ≫= _) as [r0|].
  - unfold Repository.update.
    destruct (from_option _ _ _) as [dob|]; [|discriminate].
    destruct (_ && _); [discriminate|]. intros [= _ <-].
    unfold Spec.roles_nonempty in *. simpl.
    apply Forall_fmap. eapply List.Forall_impl; [|exact Hinv].
    intros r Hr. simpl. destruct (Row.id r =? Row.id r0); [|exact Hr].
    simpl. destruct (User.roles e) as [l|]; simpl; [congruence|exact Hr].
  - unfold Repository.insert.
    intros H. repeat case_match; try discriminate; injection H as _ <-;
      unfold Spec.roles_nonempty in *; simpl;
      (apply Forall_app; split; [exact Hinv|]);
      (constructor; [|constructor]); simpl;
      destruct (User.roles e) as [l|]; simpl; congruence.
Qed.

Lemma loaded_roles_nonempty (id : Z) (repo : Repository.t) (user : User.t) :
  Spec.roles_nonempty repo ->
  Repository.findOne (Repository.WhereId id) Repository.default_select repo
  = Some user ->
  exists l, User.roles user = Some l /\ l <> [].
Proof.
  intros Hinv. rewrite findOne_id.
  destruct (Repository.row_of id repo) as [r|] eqn:Hrow; [|discriminate].
  intros [= <-]. exists (Row.roles r). split; [reflexivity|].
  apply row_of_Some in Hrow as [Hin _].
  unfold Spec.roles_nonempty in Hinv. rewrite List.Forall_forall in Hinv.
  by apply Hinv, list_elem_of_In.
Qed.

Lemma create_roles_nonempty (now : Z) (d : CreateUserDto.t)
    (repo : Repository.t) :
  CreateUserDto.roles d <> Some [] ->
  Spec.roles_nonempty repo ->
  Spec.roles_nonempty (snd (UsersService.create now d repo)).
Proof.
  intros Hd Hinv. unfold UsersService.create.
  destruct (bool_decide _); [exact Hinv|].
  destruct (negb _); [exact Hinv|].
  destruct (Repository.save _ _ _) as [|[u repo']] eqn:Hs; [exact Hinv|].
  simpl. eapply save_roles_nonempty; [|exact Hinv|exact Hs].
  unfold Repository.create. simpl.
  destruct (CreateUserDto.roles d) as [l|]; simpl; congruence.
Qed.

Lemma update_roles_nonempty (now id : Z) (d : UpdateUserDto.t)
    (repo : Repository.t) :
  UpdateUserDto.roles d <> Some [] ->
  Spec.roles_nonempty repo ->
  Spec.roles_nonempty (snd (UsersService.update now id d repo)).
Proof.
  intros Hd Hinv. unfold UsersService.update.
  destruct (Repository.findOne _ _ _) as [user|] eqn:Hload; [|exact Hinv].
  destruct (loaded_roles_nonempty _ _ _ Hinv Hload) as (l & Hl & Hne).
  match goal with |- context [if ?c then _ else _] => destruct c end;
    [exact Hinv|].
  destruct (Repository.save _ _ _) as [|[u repo']] eqn:Hs; [exact Hinv|].
  simpl. eapply save_roles_nonempty; [|exact Hinv|exact Hs].
  assert (User.roles (User.assign user (UpdateUserDto.props d)) <> Some [])
    as Ha.
  { simpl. rewrite Hl. destruct (UpdateUserDto.roles d); simpl; congruence. }
  destruct (UpdateUserDto.dateOfBirth d) as [s|]; [|exact Ha].
  destruct (truthy_string (Some s)); exact Ha.
Qed.

Lemma set_active_roles_nonempty (b : bool) (now id : Z)
    (repo : Repository.t) :
  Spec.roles_nonempty repo ->
  Spec.roles_nonempty (snd (Spec.set_active b now id repo)).
Proof.
  intros Hinv.
  destruct b; unfold Spec.set_active, UsersService.activate,
    UsersService.deactivate;
    (destruct (Repository.findOne _ _ _) as [user|] eqn:Hload;
       [|exact Hinv]);
    destruct (loaded_roles_nonempty _ _ _ Hinv Hload) as (l & Hl & Hne);
    (destruct (Repository.save _ _ _) as [|[u repo']] eqn:Hs;
       [exact Hinv|]);
    simpl; (eapply save_roles_nonempty; [|exact Hinv|exact Hs]);
    simpl; rewrite Hl; congruence.
Qed.

Lemma remove_roles_nonempty (id : Z) (repo : Repository.t) :
  Spec.roles_nonempty repo ->
  Spec.roles_nonempty (snd (UsersService.remove id repo)).
Proof.
  intros Hinv. unfold UsersService.remove, Repository.delete.
  destruct (_ =? _)%nat; simpl; unfold Spec.roles_nonempty in *; simpl;
    rewrite List.Forall_forall in *; intros r Hr; apply Hinv;
    by apply filter_In in Hr as [Hr _].
Qed.

Lemma serve_roles_nonempty (now : Z) (req : UsersController.Request)
    (repo : Repository.t) :
  Spec.no_empty_roles req ->
  Spec.roles_nonempty repo ->
  Spec.roles_nonempty (UsersController.serve now req repo).
Proof.
  intros Hreq Hinv. destruct req as [body|id body|id|id|id]; simpl in *.
  - unfold UsersController.create.
    destruct (ValidationPipe.validCreateUserDto body); [|exact Hinv].
    by apply create_roles_nonempty.
  - unfold UsersController.update.
    destruct (ValidationPipe.validUpdateUserDto body); [|exact Hinv].
    by apply update_roles_nonempty.
  - by apply remove_roles_nonempty.
  - by apply (set_active_roles_nonempty false).
  - by apply (set_active_roles_nonempty true).
Qed.

Lemma validRoles_false (l : list string) (x : string) :
  x ∈ l -> x ∉ ValidationPipe.allowedRoles ->
  ValidationPipe.validRoles l = false.
Proof.
  intros Hin Hx. apply not_true_is_false. intros Hv.
  unfold ValidationPipe.validRoles in Hv. rewrite forallb_forall in Hv.
  apply list_elem_of_In in Hin. specialize (Hv x Hin).
  unfold ValidationPipe.isIn in Hv. by apply bool_decide_eq_true in Hv.
Qed.

End Roles.

Section RolesClaims.

Import UsersController.

Lemma serve_all_roles_nonempty (reqs : list (Z * Request))
    (repo : Repository.t) :
  Forall (fun tr => Spec.no_empty_roles (snd tr)) reqs ->
  Spec.roles_nonempty repo ->
  Spec.roles_nonempty (serve_all reqs repo).
Proof.
  intros Hreqs. revert repo.
  induction Hreqs as [|[now req] reqs Hreq _ IH]; intros repo Hinv.
  - exact Hinv.
  - simpl. apply IH. by apply serve_roles_nonempty.
Qed.

(** C2, as the code has it.  Over any sequence of create, update, remove,
deactivate and activate requests of which none carries a list of roles
that is empty, no user ever has an empty list of roles.  [create] gives
the roles ["user"] to a user whose input has none, and the pipeline
rejects every create or update input with a role that is not "user",
"admin" or "moderator". *)
Theorem roles_stay_nonempty
    (reqs : list (Z * Request)) (repo : Repository.t) :
  Forall (fun tr => Spec.no_empty_roles (snd tr)) reqs ->
  Spec.roles_nonempty repo ->
  Spec.roles_nonempty (serve_all reqs repo)
  /\ (forall now d u repo',
        CreateUserDto.roles d = None ->
        create now d repo = (Return u, repo') ->
        User.roles u = Some ["user"]
        /\ exists r, Repository.rows repo' = Repository.rows repo ++ [r]
                     /\ Row.roles r = ["user"])
  /\ (forall now d l x,
        CreateUserDto.roles d = Some l ->
        x ∈ l -> x ∉ ValidationPipe.allowedRoles ->
        create now d repo = (Throw BadRequestException, repo))
  /\ (forall now id d l x,
        UpdateUserDto.roles d = Some l ->
        x ∈ l -> x ∉ ValidationPipe.allowedRoles ->
        update now id d repo = (Throw BadRequestException, repo)).
Proof.
  intros Hreqs Hinv. split; [by apply serve_all_roles_nonempty|].
  split; [|split].
  - intros now d u repo' Hd. unfold create.
    destruct (ValidationPipe.validCreateUserDto d); [|discriminate].
    intros H. apply create_Return in H as (_ & _ & -> & ->).
    unfold Spec.created_row. rewrite Hd. simpl. split; [reflexivity|].
    eexists. split; reflexivity.
  - intros now d l x Hd Hin Hx. unfold create.
    unfold ValidationPipe.validCreateUserDto. rewrite Hd. simpl.
    rewrite (validRoles_false l x Hin Hx). by rewrite andb_false_r.
  - intros now id d l x Hd Hin Hx. unfold update.
    unfold ValidationPipe.validUpdateUserDto. rewrite Hd. simpl.
    rewrite (validRoles_false l x Hin Hx). by rewrite andb_false_r.
Qed.

Lemma roles_stay_nonempty_witness :
  Spec.roles_nonempty (serve_all Examples.requests Repository.empty)
  /\ (forall now d u repo',
        CreateUserDto.roles d = None ->
        create now d Repository.empty = (Return u, repo') ->
        User.roles u = Some ["user"]
        /\ exists r,
             Repository.rows repo' = Repository.rows Repository.empty ++ [r]
             /\ Row.roles r = ["user"])
  /\ (forall now d l x,
        CreateUserDto.roles d = Some l ->
        x ∈ l -> x ∉ ValidationPipe.allowedRoles ->
        create now d Repository.empty
        = (Throw BadRequestException, Repository.empty))
  /\ (forall now id d l x,
        UpdateUserDto.roles d = Some l ->
        x ∈ l -> x ∉ ValidationPipe.allowedRoles ->
        update now id d Repository.empty
        = (Throw BadRequestException, Repository.empty)).
Proof.
  apply (roles_stay_nonempty Examples.requests Repository.empty).
  - repeat constructor; simpl; congruence.
  - constructor.
Defined.

(** C2 as stated fails: a create input whose list of roles is there and
empty passes the pipeline, and the user is stored with no role. *)
Lemma empty_roles_accepted :
  ValidationPipe.validCreateUserDto Examples.john_no_roles = true
  /\ Spec.roles_nonempty Repository.empty
  /\ (exists u,
        fst (create 1000 Examples.john_no_roles Repository.empty) = Return u
        /\ User.roles u = Some [])
  /\ ~ Spec.roles_nonempty
         (serve 1000 (Post Examples.john_no_roles) Repository.empty).
Proof.
  split; [reflexivity|]. split; [constructor|]. split.
  - eexists. split; reflexivity.
  - intros H. vm_compute in H. inversion H as [|? ? Hr _]. by apply Hr.
Qed.

End RolesClaims.

(** * Further properties of the service *)

(** ** Calls that fail *)

Section Failures.

Import UsersService.

Lemma filter_all_length {A} (p : A -> bool) (l : list A) :
  length (List.filter p l) = length l -> List.filter p l = l.
Proof.
  induction l as [|a l IH]; [done|].
  simpl. pose proof (List.filter_length_le p l) as Hle.
  destruct (p a); simpl; intros H.
  - f_equal. apply IH. lia.
  - lia.
Qed.

Lemma remove_Throw_unchanged (id : Z) (repo : Repository.t) (e : Exception) :
  fst (remove id repo) = Throw e -> snd (remove id repo) = repo.
Proof.
  unfold remove, Repository.delete.
  pose proof (List.filter_length_le (fun r => negb (Row.id r =? id))
                (Repository.rows repo)) as Hle.
  destruct (_ =? _)%nat eqn:E; simpl; [|discriminate]. intros _.
  apply Nat.eqb_eq in E. destruct repo as [rows n]. simpl in *.
  f_equal. apply filter_all_length. lia.
Qed.

(** X1. A call of [create], [update], [remove], [deactivate] or
[activate] either returns a value or leaves the table as it was: a call
that throws writes nothing. *)
Theorem failed_call_leaves_table
    (now id : Z) (c : CreateUserDto.t) (d : UpdateUserDto.t)
    (repo : Repository.t) :
  ((exists u, fst (create now c repo) = Return u)
   \/ snd (create now c repo) = repo)
  /\ ((exists u, fst (update now id d repo) = Return u)
      \/ snd (update now id d repo) = repo)
  /\ (fst (remove id repo) = Return tt \/ snd (remove id repo) = repo)
  /\ ((exists u, fst (deactivate now id repo) = Return u)
      \/ snd (deactivate now id repo) = repo)
  /\ ((exists u, fst (activate now id repo) = Return u)
      \/ snd (activate now id repo) = repo).
Proof.
  repeat split.
  - unfold create. repeat case_match; simpl; eauto.
  - unfold update. repeat case_match; simpl; eauto.
  - destruct (fst (remove id repo)) as [u|e] eqn:E;
      [destruct u; by left|].
    right. by eapply remove_Throw_unchanged.
  - unfold deactivate. repeat case_match; simpl; eauto.
  - unfold activate. repeat case_match; simpl; eauto.
Qed.



Lemma update_conflict_decode (e : string) (r : Row.t) (repo : Repository.t) :
  truthy_string (Some e)
  && negb (bool_decide (Some e = Some (Row.email r)))
  && bool_decide (is_Some (Repository.findOne (Repository.WhereEmail e)
                             Repository.default_select repo)) = true
  <-> e <> "" /\ e <> Row.email r /\ Spec.email_in_use e repo.
Proof.
  rewrite findOne_email_is_Some, <- email_taken_true.
  rewrite !andb_true_iff, !negb_true_iff. simpl.
  rewrite negb_true_iff, String.eqb_neq, bool_decide_eq_false.
  split; [intros [[H1 H2] H3]|intros (H1 & H2 & H3)];
    repeat split; try done; congruence.
Qed.

(** X3. On a user of the table, [update] throws [ConflictException]
exactly when its input has an email that is not empty, is not the email
the user has, and is the email of a user of the table. *)
Theorem update_conflict_iff
    (now id : Z) (d : UpdateUserDto.t) (repo : Repository.t) (r : Row.t) :
  Repository.row_of id repo = Some r ->
  fst (update now id d repo) = Throw ConflictException
  <-> exists e, UpdateUserDto.email d = Some e
        /\ e <> "" /\ e <> Row.email r /\ Spec.email_in_use e repo.
Proof.
  intros Hrow. unfold update. rewrite findOne_id, Hrow. simpl.
  rewrite hydrate_default. simpl.
  destruct (UpdateUserDto.email d) as [e|].
  - match goal with |- context [if ?c then _ else _] =>
      assert (c = true <-> e <> "" /\ e <> Row.email r
                           /\ Spec.email_in_use e repo) as Hdec
        by apply update_conflict_decode;
      destruct c
    end.
    + split; [|done]. intros _. exists e. split; [done|]. by apply Hdec.
    + split.
      * repeat case_match; simpl; discriminate.
      * intros (e' & [= <-] & H). apply Hdec in H. discriminate.
  - split.
    + repeat case_match; simpl; discriminate.
    + intros (e' & [=] & _).
Qed.

Lemma update_conflict_iff_witness :
  fst (update 3000 2 Examples.take_johns_email Examples.repo_two)
  = Throw ConflictException
  <-> exists e, UpdateUserDto.email Examples.take_johns_email = Some e
        /\ e <> "" /\ e <> Row.email Examples.row_jane
        /\ Spec.email_in_use e Examples.repo_two.
Proof.
  apply (update_conflict_iff 3000 2 Examples.take_johns_email
           Examples.repo_two Examples.row_jane).
  reflexivity.
Defined.

End Failures.

(** ** Calls in sequence *)

Section Composition.

Import UsersService.

Lemma findOne_row_of (id : Z) (repo : Repository.t) (r : Row.t) :
  Repository.row_of id repo = Some r ->
  findOne id repo = Return (Repository.hydrate public_select r).
Proof. intros H. unfold findOne. by rewrite findOne_id, H. Qed.







Lemma email_taken_app (e : string) (repo : Repository.t) (r : Row.t)
    (n : Z) :
  Row.email r = e ->
  Repository.email_taken e
    (Repository.mk (Repository.rows repo ++ [r]) n) = true.
Proof.
  intros <-. unfold Repository.email_taken. simpl.
  rewrite existsb_app. simpl. rewrite String.eqb_refl.
  by rewrite orb_true_r.
Qed.

(** X6. After a successful [create], every further [create] with the same
email throws [ConflictException] and writes nothing, whatever the rest
of its input. *)
Theorem create_twice_conflict
    (now now2 : Z) (d d2 : CreateUserDto.t) (repo repo' : Repository.t)
    (u : User.t) :
  create now d repo = (Return u, repo') ->
  CreateUserDto.email d2 = CreateUserDto.email d ->
  create now2 d2 repo' = (Throw ConflictException, repo').
Proof.
  intros H Hem. apply create_Return in H as (_ & _ & _ & ->).
  rewrite create_cases, Hem, email_taken_app; done.
Qed.

Lemma create_twice_conflict_witness :
  create 2000 Examples.john_no_roles Examples.repo_john
  = (Throw ConflictException, Examples.repo_john).
Proof.
  apply (create_twice_conflict 1000 2000 Examples.john
           Examples.john_no_roles Repository.empty Examples.repo_john
           Examples.view_john); reflexivity.
Defined.

Lemma filter_id_fresh (i : Z) (l : list Row.t) :
  existsb (fun r => Row.id r =? i) l = false ->
  List.filter (fun r => negb (Row.id r =? i)) l = l.
Proof.
  induction l as [|r l IH]; [done|].
  simpl. destruct (Row.id r =? i); simpl; [discriminate|].
  intros H. by rewrite IH.
Qed.

Lemma remove_created (now : Z) (d : CreateUserDto.t) (repo : Repository.t) :
  Repository.id_taken (Repository.nextId repo) repo = false ->
  remove (Repository.nextId repo)
    (Repository.mk
       (Repository.rows repo
        ++ [Spec.created_row now d (Repository.nextId repo)])
       (Repository.nextId repo + 1))
  = (Return tt,
     Repository.mk (Repository.rows repo) (Repository.nextId repo + 1)).
Proof.
  intros Hid. unfold remove, Repository.delete. simpl.
  rewrite List.filter_app, (filter_id_fresh _ _ Hid). simpl.
  rewrite Z.eqb_refl. simpl. rewrite app_nil_r, length_app. simpl.
  destruct (_ =? _)%nat eqn:E; [|done].
  apply Nat.eqb_eq in E. lia.
Qed.

(** X7. [remove] on the identifier of the user a successful [create]
handed back succeeds, and [findAll] then returns what it returned before
the [create]. *)
Theorem create_then_remove
    (now : Z) (d : CreateUserDto.t) (repo repo' : Repository.t)
    (u : User.t) :
  create now d repo = (Return u, repo') ->
  exists id,
    User.id u = Some id
    /\ fst (remove id repo') = Return tt
    /\ findAll (snd (remove id repo')) = findAll repo.
Proof.
  intros H. apply create_Return in H as (_ & Hid & -> & ->).
  exists (Repository.nextId repo). split; [reflexivity|].
  by rewrite (remove_created now d repo Hid).
Qed.

Lemma create_then_remove_witness :
  exists id,
    User.id Examples.view_john = Some id
    /\ fst (remove id Examples.repo_john) = Return tt
    /\ findAll (snd (remove id Examples.repo_john))
       = findAll Repository.empty.
Proof.
  apply (create_then_remove 1000 Examples.john Repository.empty).
  reflexivity.
Defined.

Lemma find_filter_implied {A} (p q : A -> bool) (l : list A) :
  (forall a, p a = true -> q a = true) ->
  List.find p (List.filter q l) = List.find p l.
Proof.
  intros Hpq. induction l as [|a l IH]; [done|].
  simpl. destruct (q a) eqn:Hq; simpl.
  - destruct (p a); [done|exact IH].
  - destruct (p a) eqn:Hp; [|exact IH].
    apply Hpq in Hp. congruence.
Qed.


End Composition.

(** ** Reads *)

Section Reads.

Import UsersService.

Lemma filter_fmap {A B} (f : A -> B) (p : B -> bool) (l : list A) :
  List.filter p (f <$> l) = f <$> List.filter (fun a => p (f a)) l.
Proof.
  induction l as [|a l IH]; [done|].
  csimpl. rewrite IH. by destruct (p (f a)).
Qed.

Lemma filter_ext_bool {A} (p q : A -> bool) (l : list A) :
  (forall a, p a = q a) -> List.filter p l = List.filter q l.
Proof. intros H. apply List.filter_ext. exact H. Qed.

Lemma filter_true {A} (l : list A) : List.filter (fun _ => true) l = l.
Proof. induction l as [|a l IH]; [done|]. simpl. by rewrite IH. Qed.

Lemma findAll_rows (repo : Repository.t) :
  findAll repo = Repository.hydrate public_select <$> Repository.rows repo.
Proof.
  unfold findAll, Repository.find.
  by rewrite (filter_ext_bool (Repository.matches None) (fun _ => true)),
    filter_true.
Qed.

Lemma findByActiveStatus_rows (active : bool) (repo : Repository.t) :
  findByActiveStatus active repo
  = Repository.hydrate public_select
    <$> List.filter (fun r => Bool.eqb (Row.isActive r) active)
                    (Repository.rows repo).
Proof. reflexivity. Qed.

(** X9. [findByActiveStatus active] returns, of the users [findAll]
returns, those whose [isActive] is [active], each as often as [findAll]
does. *)
Theorem findByActiveStatus_filter (active : bool) (repo : Repository.t) :
  findByActiveStatus active repo
  ≡ₚ List.filter (fun u => bool_decide (User.isActive u = Some active))
                 (findAll repo).
Proof.
  rewrite findByActiveStatus_rows, findAll_rows, filter_fmap.
  apply fmap_Permutation.
  rewrite (filter_ext_bool
             (fun r => Bool.eqb (Row.isActive r) active)
             (fun r => bool_decide
                         (User.isActive
                            (Repository.hydrate public_select r)
                          = Some active))); [done|].
  intros r. simpl. destruct (Row.isActive r), active; reflexivity.
Qed.

Lemma filter_partition {A} (p : A -> bool) (l : list A) :
  List.filter p l ++ List.filter (fun a => negb (p a)) l ≡ₚ l.
Proof.
  induction l as [|a l IH]; [done|].
  simpl. destruct (p a); simpl.
  - by constructor.
  - rewrite <- Permutation_middle. by constructor.
Qed.

(** X10. The answers of [GET /users] with [active=true] and with
[active=false] together are, up to order, the answer without the query
parameter: every user is in exactly one of the two. *)
Theorem controller_findAll_partition (repo : Repository.t) :
  UsersController.findAll (Some true) repo
  ++ UsersController.findAll (Some false) repo
  ≡ₚ UsersController.findAll None repo.
Proof.
  simpl. rewrite !findByActiveStatus_rows, findAll_rows, <- fmap_app.
  apply fmap_Permutation.
  rewrite <- (filter_partition (fun r => Bool.eqb (Row.isActive r) true)
                (Repository.rows repo)) at 3.
  apply Permutation_app; [done|].
  rewrite (filter_ext_bool
             (fun r => Bool.eqb (Row.isActive r) false)
             (fun r => negb (Bool.eqb (Row.isActive r) true))); [done|].
  intros r. by destruct (Row.isActive r).
Qed.

End Reads.

(** ** The rows a save leaves *)

Section SavedRows.

Import UsersService.

(** The rows after the save of a user that was loaded from the table. *)
Lemma save_loaded_rows (now : Z) (e u : User.t) (repo repo' : Repository.t)
    (r : Row.t) :
  Repository.row_of (Row.id r) repo = Some r ->
  User.id e = Some (Row.id r) ->
  Repository.save now e repo = inr (u, repo') ->
  exists dob,
    repo' = Repository.mk
              ((fun x => if Row.id x =? Row.id r
                         then Repository.merge now e dob x else x)
                 <$> Repository.rows repo)
              (Repository.nextId repo)
    /\ (default (Row.email r) (User.email e) = Row.email r
        \/ Repository.email_taken (default (Row.email r) (User.email e))
                                  repo = false).
Proof.
  intros Hrow Hid. rewrite (save_loaded _ _ _ r Hrow Hid).
  unfold Repository.update.
  destruct (from_option _ _ _) as [dob|]; [|discriminate].
  destruct (String.eqb_spec (default (Row.email r) (User.email e))
                            (Row.email r)) as [Heq|Hne]; simpl.
  - intros [= _ <-]. exists dob. split; [done|by left].
  - destruct (Repository.email_taken _ repo) eqn:Ht; [discriminate|].
    intros [= _ <-]. exists dob. split; [done|by right].
Qed.

(** The entity a successful [update] saves. *)
Lemma update_saves (now id : Z) (d : UpdateUserDto.t)
    (repo repo' : Repository.t) (v : User.t) (r : Row.t) :
  Repository.row_of id repo = Some r ->
  update now id d repo = (Return v, repo') ->
  exists e u,
    Repository.save now e repo = inr (u, repo')
    /\ User.id e = Some (Row.id r)
    /\ User.email e
       = Some (default (Row.email r) (UpdateUserDto.email d))
    /\ User.isActive e
       = Some (default (Row.isActive r) (UpdateUserDto.isActive d)).
Proof.
  intros Hrow. unfold update. rewrite findOne_id, Hrow. simpl.
  rewrite hydrate_default.
  match goal with |- context [if ?c then _ else _] => destruct c end;
    [discriminate|].
  destruct (Repository.save _ _ _) as [|[u repo'']] eqn:Hs; [discriminate|].
  intros [= _ <-]. eexists _, _. split; [exact Hs|].
  destruct d as [fn ln em pw rl dob ph act]. simpl.
  destruct dob as [s|]; [destruct (negb _)|]; simpl;
    by destruct em, act.
Qed.

(** The entity a successful [deactivate] or [activate] saves. *)
Lemma set_active_saves (b : bool) (now id : Z) (repo repo' : Repository.t)
    (v : User.t) (r : Row.t) :
  Repository.row_of id repo = Some r ->
  Spec.set_active b now id repo = (Return v, repo') ->
  exists e u,
    Repository.save now e repo = inr (u, repo')
    /\ User.id e = Some (Row.id r)
    /\ User.email e = Some (Row.email r)
    /\ User.isActive e = Some b.
Proof.
  intros Hrow.
  assert (Spec.set_active b now id repo
          = match Repository.findOne (Repository.WhereId id)
                    Repository.default_select repo with
            | None => (Throw NotFoundException, repo)
            | Some user =>
              match Repository.save now (User.set_isActive b user) repo with
              | inl _ => (Throw QueryFailedError, repo)
              | inr (u, repo') => (Return (User.without_password u), repo')
              end
            end) as -> by (by destruct b).
  rewrite findOne_id, Hrow. simpl. rewrite hydrate_default.
  destruct (Repository.save _ _ _) as [|[u repo'']] eqn:Hs; [discriminate|].
  intros [= _ <-]. eexists _, _. split; [exact Hs|]. done.
Qed.

End SavedRows.

(** ** When [update] succeeds *)

Section UpdateOutcome.

Import UsersService.






End UpdateOutcome.

(** ** Lookups after a write *)

Section Lookups.

Import UsersService.

(** X12. After a successful [deactivate], the user handed back is
inactive and is among the users [findByActiveStatus false] returns, and
no user [findByActiveStatus true] returns has its identifier; the same
holds for [activate] with the two flags exchanged. *)
Theorem set_active_then_filter
    (b : bool) (now id : Z) (repo repo' : Repository.t) (v : User.t) :
  (if b then activate else deactivate) now id repo = (Return v, repo') ->
  User.isActive v = Some b
  /\ v ∈ findByActiveStatus b repo'
  /\ forall u, u ∈ findByActiveStatus (negb b) repo' ->
       User.id u <> Some id.
Proof.
  intros H. change (Spec.set_active b now id repo = (Return v, repo')) in H.
  destruct (Repository.row_of id repo) as [r|] eqn:Hrow.
  2:{ exfalso. revert H. destruct b; simpl; unfold activate, deactivate;
      rewrite findOne_id, Hrow; discriminate. }
  pose proof (row_of_Some _ _ _ Hrow) as [_ Hid].
  destruct (set_active_Return b now id repo r Hrow)
    as (repo'' & Heq & Hrow' & _).
  rewrite Heq in H. injection H as <- <-.
  destruct (set_active_saves b now id repo repo'' _ r Hrow Heq)
    as (e & u0 & Hs & Hide & _ & Hact).
  destruct (save_loaded_rows now e u0 repo repo'' r) as (dob & -> & _);
    [by rewrite Hid|done|done|].
  split; [reflexivity|]. split.
  - rewrite findByActiveStatus_rows. apply list_elem_of_fmap.
    eexists. split; [reflexivity|].
    apply list_elem_of_In, filter_In. split.
    + apply list_elem_of_In. by apply row_of_Some in Hrow' as [? _].
    + simpl. by destruct b.
  - intros u Hu. rewrite findByActiveStatus_rows in Hu.
    apply list_elem_of_fmap in Hu as (x' & -> & Hx').
    apply list_elem_of_In, filter_In in Hx' as [Hx' Hflag].
    simpl in Hx'. apply list_elem_of_In, list_elem_of_fmap in Hx'
      as (x & -> & _).
    simpl. rewrite Hid in Hflag |- *.
    destruct (Z.eqb_spec (Row.id x) id) as [Hx|Hx]; simpl in *.
    + rewrite Hact in Hflag. simpl in Hflag. by destruct b.
    + change (Some (Row.id x) <> Some id). congruence.
Qed.

Lemma set_active_then_filter_witness :
  User.isActive
    (Repository.hydrate public_select
       (Row.set_updatedAt 3000 (Row.set_isActive false Examples.row_john)))
  = Some false
  /\ Repository.hydrate public_select
       (Row.set_updatedAt 3000 (Row.set_isActive false Examples.row_john))
     ∈ findByActiveStatus false
         (snd (deactivate 3000 1 Examples.repo_two))
  /\ forall u,
       u ∈ findByActiveStatus (negb false)
             (snd (deactivate 3000 1 Examples.repo_two)) ->
       User.id u <> Some 1.
Proof.
  apply (set_active_then_filter false 3000 1 Examples.repo_two).
  reflexivity.
Defined.

(** X13. The lookup for authentication and the public lookup by email
find the same user: the first returns it with a [password], the second
returns the same value with the [password] taken out; both find a user
exactly when the email is that of a user of the table. *)
Theorem auth_lookup_vs_public (email : string) (repo : Repository.t) :
  User.without_password <$> findByEmailForAuth email repo
  = findByEmail email repo
  /\ Forall (fun u => is_Some (User.password u))
            (option_list (findByEmailForAuth email repo))
  /\ (is_Some (findByEmailForAuth email repo)
      <-> Spec.email_in_use email repo)
  /\ (is_Some (findByEmail email repo) <-> Spec.email_in_use email repo).
Proof.
  rewrite <- email_taken_true.
  rewrite <- (findOne_email_is_Some email auth_select repo) at 1.
  rewrite <- (findOne_email_is_Some email public_select repo).
  rewrite !bool_decide_eq_true.
  unfold findByEmailForAuth, findByEmail. rewrite !findOne_find.
  destruct (List.find _ _) as [r|]; simpl.
  - split; [reflexivity|]. split; [|done].
    repeat constructor. by eexists.
  - split; [reflexivity|]. split; [constructor|done].
Qed.

(** X14. [GET /users/email/:email] throws [NotFoundException] exactly when
no user of the table has the email; the user it returns otherwise has
that email and no [password]. *)
Theorem controller_findByEmail (email : string) (repo : Repository.t) :
  (UsersController.findByEmail email repo = Throw NotFoundException
   <-> ~ Spec.email_in_use email repo)
  /\ Forall (fun u => User.email u = Some email /\ Spec.no_password u)
            (returned (UsersController.findByEmail email repo)).
Proof.
  rewrite <- email_taken_true.
  rewrite <- (findOne_email_is_Some email public_select repo).
  rewrite bool_decide_eq_true.
  unfold UsersController.findByEmail, findByEmail. rewrite findOne_find.
  destruct (List.find _ _) as [r|] eqn:E; simpl.
  - split.
    + split; [discriminate|]. intros H. exfalso. apply H. by eexists.
    + repeat constructor. apply find_some in E as [_ E]. simpl in E.
      apply String.eqb_eq in E. by rewrite <- E.
  - split; [|constructor]. split; [by intros _ [? ?]|done].
Qed.

Lemma NoDup_fmap_inj {A B} (f : A -> B) (l : list A) (x y : A) :
  NoDup (f <$> l) -> x ∈ l -> y ∈ l -> f x = f y -> x = y.
Proof.
  induction l as [|a l IH]; [by intros _ Hx; inversion Hx|].
  csimpl. intros Hnd Hx Hy Hf. apply list.NoDup_cons in Hnd as [Ha Hnd].
  apply elem_of_cons in Hx as [->|Hx]; apply elem_of_cons in Hy as [->|Hy].
  - done.
  - exfalso. apply Ha. rewrite Hf. by apply list_elem_of_fmap_2.
  - exfalso. apply Ha. rewrite <- Hf. by apply list_elem_of_fmap_2.
  - by apply IH.
Qed.

(** X15. On a table where no two users have the same identifier,
[findOne id] returns a user exactly when [findAll] lists that user with
the identifier [id]. *)
Theorem findOne_iff_findAll
    (id : Z) (repo : Repository.t) (u : User.t) :
  Spec.ids_unique repo ->
  findOne id repo = Return u
  <-> u ∈ findAll repo /\ User.id u = Some id.
Proof.
  intros Huniq. rewrite findAll_rows. split.
  - intros H. destruct (Repository.row_of id repo) as [r|] eqn:Hrow.
    + rewrite (findOne_row_of _ _ _ Hrow) in H. injection H as <-.
      apply row_of_Some in Hrow as [Hin <-].
      split; [by apply list_elem_of_fmap_2|reflexivity].
    + unfold findOne in H. rewrite findOne_id, Hrow in H. discriminate.
  - intros [Hin Hid]. apply list_elem_of_fmap in Hin as (x & -> & Hx).
    injection Hid as Hid.
    destruct (Repository.row_of id repo) as [r|] eqn:Hrow.
    + pose proof (row_of_Some _ _ _ Hrow) as [Hr Hrid].
      rewrite (findOne_row_of _ _ _ Hrow). do 2 f_equal.
      apply (NoDup_fmap_inj Row.id (Repository.rows repo)); try done.
      congruence.
    + exfalso. apply row_of_None in Hrow. apply Hrow. by exists x.
Qed.

Lemma findOne_iff_findAll_witness :
  findOne 2 Examples.repo_two
  = Return (Repository.hydrate public_select Examples.row_jane)
  <-> Repository.hydrate public_select Examples.row_jane
      ∈ findAll Examples.repo_two
      /\ User.id (Repository.hydrate public_select Examples.row_jane)
         = Some 2.
Proof.
  apply (findOne_iff_findAll 2 Examples.repo_two).
  apply (bool_decide_unpack _). vm_compute. exact I.
Defined.

End Lookups.

(** ** What a request does to the table *)

Section Steps.

Import UsersService.

(** A request leaves the table alone, appends a row with the next
identifier, rewrites the rows with one identifier, or deletes them. *)
Lemma serve_cases (now : Z) (req : UsersController.Request)
    (repo : Repository.t) :
  UsersController.serve now req repo = repo
  \/ (exists r,
        UsersController.serve now req repo
        = Repository.mk (Repository.rows repo ++ [r])
                        (Repository.nextId repo + 1)
        /\ Row.id r = Repository.nextId repo
        /\ Repository.id_taken (Repository.nextId repo) repo = false
        /\ Repository.email_taken (Row.email r) repo = false
        /\ Row.createdAt r = now /\ Row.updatedAt r = now)
  \/ (exists r0 e dob,
        Repository.row_of (Row.id r0) repo = Some r0
        /\ UsersController.serve now req repo
           = Repository.mk
               ((fun x => if Row.id x =? Row.id r0
                          then Repository.merge now e dob x else x)
                  <$> Repository.rows repo)
               (Repository.nextId repo)
        /\ (default (Row.email r0) (User.email e) = Row.email r0
            \/ Repository.email_taken
                 (default (Row.email r0) (User.email e)) repo = false))
  \/ (exists id,
        UsersController.serve now req repo
        = Repository.mk
            (List.filter (fun x => negb (Row.id x =? id))
                         (Repository.rows repo))
            (Repository.nextId repo)).
Proof.
  destruct req as [body|id body|id|id|id]; simpl.
  - unfold UsersController.create.
    destruct (ValidationPipe.validCreateUserDto body); [|by left].
    rewrite create_cases.
    destruct (Repository.email_taken _ repo) eqn:Hem; [by left|].
    destruct (negb _); [by left|].
    destruct (Repository.id_taken _ repo) eqn:Hid; [by left|].
    right. left. eexists. split; [reflexivity|]. done.
  - unfold UsersController.update.
    destruct (ValidationPipe.validUpdateUserDto body); [|by left].
    destruct (Repository.row_of id repo) as [r|] eqn:Hrow.
    + pose proof (row_of_Some _ _ _ Hrow) as [_ Hid].
      destruct (update now id body repo) as [[v|ex] repo'] eqn:Hup.
      * destruct (update_saves _ _ _ _ _ _ _ Hrow Hup)
          as (e & u & Hs & Hide & _ & _).
        rewrite <- Hid in Hrow.
        destruct (save_loaded_rows _ _ _ _ _ _ Hrow Hide Hs)
          as (dob & -> & Hmail).
        right. right. left. by eexists r, e, dob.
      * left. revert Hup. unfold update.
        repeat case_match; intros [= ? ?]; by subst.
    + left. unfold update. by rewrite findOne_id, Hrow.
  - right. right. right. exists id.
    unfold remove, Repository.delete. by destruct (_ =? _)%nat.
  - destruct (Repository.row_of id repo) as [r|] eqn:Hrow.
    + pose proof (row_of_Some _ _ _ Hrow) as [_ Hid].
      destruct (set_active_Return false now id repo r Hrow)
        as (repo' & Heq & _ & _).
      destruct (set_active_saves false _ _ _ _ _ _ Hrow Heq)
        as (e & u & Hs & Hide & _ & _).
      rewrite <- Hid in Hrow.
      destruct (save_loaded_rows _ _ _ _ _ _ Hrow Hide Hs)
        as (dob & -> & Hmail).
      right. right. left. exists r, e, dob. split; [done|].
      split; [|done]. simpl in Heq. by rewrite Heq.
    + left. unfold deactivate. by rewrite findOne_id, Hrow.
  - destruct (Repository.row_of id repo) as [r|] eqn:Hrow.
    + pose proof (row_of_Some _ _ _ Hrow) as [_ Hid].
      destruct (set_active_Return true now id repo r Hrow)
        as (repo' & Heq & _ & _).
      destruct (set_active_saves true _ _ _ _ _ _ Hrow Heq)
        as (e & u & Hs & Hide & _ & _).
      rewrite <- Hid in Hrow.
      destruct (save_loaded_rows _ _ _ _ _ _ Hrow Hide Hs)
        as (dob & -> & Hmail).
      right. right. left. exists r, e, dob. split; [done|].
      split; [|done]. simpl in Heq. by rewrite Heq.
    + left. unfold activate. by rewrite findOne_id, Hrow.
Qed.

End Steps.

(** ** Keys *)

Section Keys.

Import UsersService.

Lemma fmap_ext_in {A B} (f g : A -> B) (l : list A) :
  (forall x, x ∈ l -> f x = g x) -> f <$> l = g <$> l.
Proof.
  induction l as [|a l IH]; [done|]. intros H. csimpl.
  rewrite (H a) by left. f_equal. apply IH. intros x Hx. apply H. by right.
Qed.

Lemma id_taken_not_elem (i : Z) (repo : Repository.t) :
  Repository.id_taken i repo = false ->
  i ∉ Row.id <$> Repository.rows repo.
Proof.
  intros H Hin. apply list_elem_of_fmap in Hin as (r & -> & Hr).
  apply id_taken_false, row_of_None in H. apply H. by exists r.
Qed.

Lemma email_taken_not_elem (e : string) (repo : Repository.t) :
  Repository.email_taken e repo = false ->
  e ∉ Row.email <$> Repository.rows repo.
Proof.
  intros H Hin. apply list_elem_of_fmap in Hin as (r & -> & Hr).
  apply not_true_iff_false in H. apply H, email_taken_true. by exists r.
Qed.

Lemma NoDup_snoc {A} (l : list A) (a : A) :
  NoDup l -> a ∉ l -> NoDup (l ++ [a]).
Proof.
  intros Hl Ha. apply list.NoDup_app. split; [done|]. split.
  - intros x Hx Hxa. apply list_elem_of_singleton in Hxa. by subst.
  - apply NoDup_singleton.
Qed.

Lemma NoDup_fmap_filter {A B} (f : A -> B) (p : A -> bool) (l : list A) :
  NoDup (f <$> l) -> NoDup (f <$> List.filter p l).
Proof.
  induction l as [|a l IH]; [done|]. csimpl.
  intros H. apply list.NoDup_cons in H as [Ha Hl].
  destruct (p a); csimpl; [|by apply IH].
  apply list.NoDup_cons. split; [|by apply IH].
  intros Hin. apply Ha. apply list_elem_of_fmap in Hin as (x & -> & Hx).
  apply list_elem_of_fmap_2. apply list_elem_of_In, filter_In in Hx as [Hx _].
  by apply list_elem_of_In.
Qed.

(** Giving a new email to the rows with one identifier keeps the emails
apart when the new email is not in the table. *)
Lemma NoDup_emails_rewritten (i : Z) (em : string) (l : list Row.t) :
  NoDup (Row.id <$> l) -> NoDup (Row.email <$> l) ->
  em ∉ Row.email <$> l ->
  NoDup ((fun x => if Row.id x =? i then em else Row.email x) <$> l).
Proof.
  induction l as [|x l IH]; [done|]. csimpl.
  intros Hid Hem Hfresh.
  apply list.NoDup_cons in Hid as [Hxid Hid].
  apply list.NoDup_cons in Hem as [Hxem Hem].
  apply not_elem_of_cons in Hfresh as [Hne Hfresh].
  destruct (Z.eqb_spec (Row.id x) i) as [Hx|Hx].
  - rewrite (fmap_ext_in _ Row.email).
    + by apply list.NoDup_cons.
    + intros y Hy. destruct (Z.eqb_spec (Row.id y) i) as [Hy'|]; [|done].
      exfalso. apply Hxid. rewrite Hx, <- Hy'. by apply list_elem_of_fmap_2.
  - apply list.NoDup_cons. split; [|by apply IH].
    intros Hin. apply list_elem_of_fmap in Hin as (y & Hy & Hyin).
    destruct (Row.id y =? i); [congruence|].
    apply Hxem. rewrite Hy. by apply list_elem_of_fmap_2.
Qed.

Lemma serve_keys_sound (now : Z) (req : UsersController.Request)
    (repo : Repository.t) :
  Spec.keys_sound repo ->
  Spec.keys_sound (UsersController.serve now req repo).
Proof.
  intros (Hseq & Hids & Hems).
  split; [by apply serve_ids_behind_sequence|].
  destruct (serve_cases now req repo)
    as [->|[(r & -> & Hr & Hid & Hem & _)
       |[(r0 & e & dob & Hrow & -> & Hmail)|(id & ->)]]];
    unfold Spec.ids_unique, Spec.emails_unique in *; simpl.
  - done.
  - rewrite !fmap_app. csimpl. split; apply NoDup_snoc; try done.
    + rewrite Hr. by apply id_taken_not_elem.
    + by apply email_taken_not_elem.
  - rewrite <- !list_fmap_compose.
    assert (Row.id ∘ (fun x => if Row.id x =? Row.id r0
                               then Repository.merge now e dob x else x)
            <$> Repository.rows repo = Row.id <$> Repository.rows repo)
      as Hsame.
    { apply fmap_ext_in. intros x _. simpl.
      by destruct (Row.id x =? Row.id r0). }
    split; [by rewrite Hsame|].
    pose proof (row_of_Some _ _ _ Hrow) as [Hr0 _].
    rewrite (fmap_ext_in _
               (fun x => if Row.id x =? Row.id r0
                         then default (Row.email r0) (User.email e)
                         else Row.email x)).
    2:{ intros x Hx. simpl.
        destruct (Z.eqb_spec (Row.id x) (Row.id r0)) as [Heq|]; [|done].
        simpl. by rewrite (NoDup_fmap_inj Row.id _ x r0 Hids Hx Hr0 Heq). }
    destruct Hmail as [Hmail|Hmail].
    + rewrite Hmail. rewrite (fmap_ext_in _ Row.email); [done|].
      intros x Hx.
      destruct (Z.eqb_spec (Row.id x) (Row.id r0)) as [Heq|]; [|done].
      by rewrite (NoDup_fmap_inj Row.id _ x r0 Hids Hx Hr0 Heq).
    + apply NoDup_emails_rewritten; try done.
      by apply email_taken_not_elem.
  - split; by apply NoDup_fmap_filter.
Qed.

(** X16. Over any sequence of requests, a table in which the identifiers
are behind the sequence and no two users share an identifier or an email
stays so; the empty table is one. *)
Theorem keys_stay_sound
    (reqs : list (Z * UsersController.Request)) (repo : Repository.t) :
  Spec.keys_sound repo ->
  Spec.keys_sound (UsersController.serve_all reqs repo).
Proof.
  revert repo. induction reqs as [|[now req] reqs IH]; intros repo H.
  - exact H.
  - simpl. apply IH. by apply serve_keys_sound.
Qed.

Lemma keys_stay_sound_witness :
  Spec.keys_sound
    (UsersController.serve_all Examples.requests Repository.empty).
Proof.
  apply (keys_stay_sound Examples.requests Repository.empty).
  repeat split; constructor.
Defined.

End Keys.

(** ** Identifiers and timestamps over time *)

Section History.

Import UsersService.

Lemma serve_nextId (now : Z) (req : UsersController.Request)
    (repo : Repository.t) :
  Repository.nextId repo
  <= Repository.nextId (UsersController.serve now req repo).
Proof.
  destruct (serve_cases now req repo)
    as [->|[(r & -> & _)|[(r0 & e & dob & _ & -> & _)|(id & ->)]]];
    simpl; lia.
Qed.

Lemma serve_all_nextId (reqs : list (Z * UsersController.Request))
    (repo : Repository.t) :
  Repository.nextId repo
  <= Repository.nextId (UsersController.serve_all reqs repo).
Proof.
  revert repo. induction reqs as [|[now req] reqs IH]; intros repo; [done|].
  simpl. etrans; [apply (serve_nextId now req)|apply IH].
Qed.

(** X17. An identifier that a user of the table has is never given to a
user created later, whatever requests come in between and whether or not
the first user has been removed: identifiers are not reused. *)
Theorem id_never_reused
    (id now : Z) (reqs : list (Z * UsersController.Request))
    (d : CreateUserDto.t) (repo repo' : Repository.t) (u : User.t) :
  Spec.ids_behind_sequence repo ->
  Spec.exists_id id repo ->
  create now d (UsersController.serve_all reqs repo) = (Return u, repo') ->
  User.id u <> Some id.
Proof.
  intros Hseq (r & Hr & Hid) H.
  apply create_Return in H as (_ & _ & -> & _).
  change (Some (Repository.nextId (UsersController.serve_all reqs repo))
          <> Some id).
  intros [= Heq]. pose proof (serve_all_nextId reqs repo) as Hle.
  unfold Spec.ids_behind_sequence in Hseq.
  rewrite List.Forall_forall in Hseq.
  apply list_elem_of_In in Hr. specialize (Hseq r Hr). simpl in Hseq. lia.
Qed.

Lemma id_never_reused_witness :
  User.id
    (Repository.hydrate public_select
       (Spec.created_row 9000 Examples.john 3))
  <> Some 1.
Proof.
  apply (id_never_reused 1 9000 [(5000, UsersController.Delete 1)]
           Examples.john Examples.repo_two
           (Repository.mk
              [Examples.row_jane; Spec.created_row 9000 Examples.john 3] 4)).
  - repeat constructor; simpl; lia.
  - exists Examples.row_john. split; [left|reflexivity].
  - reflexivity.
Defined.

Lemma find_app_Some {A} (p : A -> bool) (l : list A) (a b : A) :
  List.find p (l ++ [a]) = Some b -> p a = false -> List.find p l = Some b.
Proof.
  induction l as [|x l IH]; simpl.
  - intros H Ha. by rewrite Ha in H.
  - destruct (p x); [done|exact IH].
Qed.

(** One request: a user that is in the table after it, with an identifier
behind the sequence, was in the table before it with the same
[createdAt]. *)
Lemma serve_createdAt (now j : Z) (req : UsersController.Request)
    (repo : Repository.t) (r' : Row.t) :
  j < Repository.nextId repo ->
  Repository.row_of j (UsersController.serve now req repo) = Some r' ->
  exists r, Repository.row_of j repo = Some r
            /\ Row.createdAt r' = Row.createdAt r.
Proof.
  intros Hj.
  destruct (serve_cases now req repo)
    as [->|[(r & -> & Hr & _)|[(r0 & e & dob & _ & -> & _)|(id & ->)]]].
  - intros H. by exists r'.
  - unfold Repository.row_of. simpl. intros H.
    apply find_app_Some in H; [by exists r'|]. apply Z.eqb_neq. lia.
  - rewrite row_of_updated by done.
    destruct (Repository.row_of j repo) as [r|]; [|discriminate].
    simpl. intros [= <-]. exists r. split; [done|].
    by destruct (Row.id r =? Row.id r0).
  - unfold Repository.row_of. simpl. intros H.
    destruct (Z.eq_dec j id) as [->|Hne].
    + by rewrite (find_filter_negb (fun x => Row.id x =? id)) in H.
    + rewrite find_filter_implied in H; [by exists r'|].
      intros a Ha. apply Z.eqb_eq in Ha. apply negb_true_iff, Z.eqb_neq.
      congruence.
Qed.

(** X18. Over any sequence of requests on a table whose identifiers are
behind the sequence, the user with a given identifier, as long as it is
in the table, keeps the [createdAt] it had. *)
Theorem createdAt_never_changes
    (j : Z) (reqs : list (Z * UsersController.Request))
    (repo : Repository.t) (r r' : Row.t) :
  Spec.ids_behind_sequence repo ->
  Repository.row_of j repo = Some r ->
  Repository.row_of j (UsersController.serve_all reqs repo) = Some r' ->
  Row.createdAt r' = Row.createdAt r.
Proof.
  intros Hseq Hrow Hrow'.
  assert (j < Repository.nextId repo) as Hj.
  { apply row_of_Some in Hrow as [Hin <-].
    unfold Spec.ids_behind_sequence in Hseq.
    rewrite List.Forall_forall in Hseq. by apply Hseq, list_elem_of_In. }
  clear Hseq. revert repo r Hrow Hrow' Hj.
  induction reqs as [|[now req] reqs IH]; intros repo r Hrow Hrow' Hj.
  - simpl in Hrow'. congruence.
  - simpl in Hrow'.
    destruct (Repository.row_of j (UsersController.serve now req repo))
      as [r1|] eqn:Hr1.
    + destruct (serve_createdAt now j req repo r1 Hj Hr1) as (r0 & Hr0 & Hc).
      rewrite Hrow in Hr0. injection Hr0 as <-. rewrite <- Hc.
      apply (IH _ r1 Hr1 Hrow').
      pose proof (serve_nextId now req repo). lia.
    + exfalso.
      assert (forall reqs repo1,
                j < Repository.nextId repo1 ->
                Repository.row_of j repo1 = None ->
                Repository.row_of j (UsersController.serve_all reqs repo1)
                = None) as Hgone.
      { clear. induction reqs as [|[now req] reqs IH]; intros repo Hj Hn;
          [done|]. simpl. apply IH.
        - pose proof (serve_nextId now req repo). lia.
        - destruct (Repository.row_of j (UsersController.serve now req repo))
            as [r1|] eqn:Hr1; [|done].
          destruct (serve_createdAt now j req repo r1 Hj Hr1)
            as (r0 & Hr0 & _). congruence. }
      rewrite Hgone in Hrow'; [discriminate| |done].
      pose proof (serve_nextId now req repo). lia.
Qed.

Lemma createdAt_never_changes_witness :
  Row.createdAt
    (Row.mk 1 "John" "Doe" "john.doe@example.com" "SecurePass123!"
            ["admin"] (Some (DateOfString "1990-01-01"))
            (Some "+1234567890") false 1000 3000)
  = Row.createdAt Examples.row_john.
Proof.
  apply (createdAt_never_changes 1 (tail Examples.requests)
           Examples.repo_john).
  - repeat constructor; simpl; lia.
  - reflexivity.
  - reflexivity.
Defined.

End History.

Section Timestamps.

Import UsersService.

Lemma serve_timestamps (t now : Z) (req : UsersController.Request)
    (repo : Repository.t) :
  t <= now ->
  Spec.timestamps_ordered t repo ->
  Spec.timestamps_ordered now (UsersController.serve now req repo).
Proof.
  intros Ht Hinv. unfold Spec.timestamps_ordered in *.
  assert (Forall (fun r => Row.createdAt r <= Row.updatedAt r <= now)
                 (Repository.rows repo)) as Hnow.
  { eapply List.Forall_impl; [|exact Hinv]. simpl. intros r Hr. lia. }
  destruct (serve_cases now req repo)
    as [->|[(r & -> & _ & _ & _ & Hc & Hu)
       |[(r0 & e & dob & _ & -> & _)|(id & ->)]]]; simpl.
  - done.
  - apply Forall_app. split; [done|]. repeat constructor; lia.
  - apply Forall_fmap. eapply List.Forall_impl; [|exact Hinv].
    simpl. intros r Hr. destruct (Row.id r =? Row.id r0); simpl; lia.
  - rewrite List.Forall_forall in *. intros r Hr. apply Hnow.
    by apply filter_In in Hr as [Hr _].
Qed.

(** X19. When the times of the requests do not run backwards, every user
of the table has [createdAt] at most [updatedAt], and [updatedAt] at most
the time of the last request. *)
Theorem timestamps_stay_ordered
    (t : Z) (reqs : list (Z * UsersController.Request))
    (repo : Repository.t) :
  Spec.clock_from t reqs ->
  Spec.timestamps_ordered t repo ->
  Spec.timestamps_ordered (Spec.last_time t reqs)
                          (UsersController.serve_all reqs repo).
Proof.
  revert t repo. induction reqs as [|[now req] reqs IH];
    intros t repo Hclock Hinv; [exact Hinv|].
  destruct Hclock as [Ht Hclock]. simpl.
  apply (IH now); [done|]. by apply (serve_timestamps t).
Qed.

Lemma timestamps_stay_ordered_witness :
  Spec.timestamps_ordered (Spec.last_time 0 Examples.requests)
    (UsersController.serve_all Examples.requests Repository.empty).
Proof.
  apply (timestamps_stay_ordered 0 Examples.requests Repository.empty).
  - simpl. lia.
  - constructor.
Defined.

End Timestamps.

(** ** The email after an update *)

Section EmailUpdate.

Import UsersService.

(** X20. When a successful [update] carries an email, [findByEmail] on
that email finds the updated user afterwards; if the email is a new one,
[findByEmail] on the old email finds nobody.  The table is one where no
two users share an email. *)
Theorem update_email_then_findByEmail
    (now id : Z) (d : UpdateUserDto.t) (e : string)
    (repo repo' : Repository.t) (r : Row.t) (v : User.t) :
  Spec.emails_unique repo ->
  Repository.row_of id repo = Some r ->
  UpdateUserDto.email d = Some e ->
  update now id d repo = (Return v, repo') ->
  (exists u, findByEmail e repo' = Some u /\ User.id u = Some id)
  /\ (e <> Row.email r -> findByEmail (Row.email r) repo' = None).
Proof.
  intros Hems Hrow He Hup.
  pose proof (row_of_Some _ _ _ Hrow) as [Hr Hid].
  destruct (update_saves _ _ _ _ _ _ _ Hrow Hup)
    as (ent & u0 & Hs & Hide & Hemail & _).
  rewrite He in Hemail. simpl in Hemail.
  rewrite <- Hid in Hrow.
  destruct (save_loaded_rows _ _ _ _ _ _ Hrow Hide Hs)
    as (dob & -> & Hmail).
  rewrite Hemail in Hmail. simpl in Hmail.
  assert (forall x' a,
            x' ∈ Repository.rows
                   (Repository.mk
                      ((fun x => if Row.id x =? Row.id r
                                 then Repository.merge now ent dob x else x)
                         <$> Repository.rows repo)
                      (Repository.nextId repo)) ->
            Row.email x' = a ->
            (a = e /\ Row.id x' = id)
            \/ (a <> Row.email r /\ Row.id x' <> id
                /\ exists x, x ∈ Repository.rows repo /\ Row.email x = a))
    as Hrows.
  { simpl. intros x' a Hx' Ha.
    apply list_elem_of_fmap in Hx' as (x & -> & Hx).
    destruct (Z.eqb_spec (Row.id x) (Row.id r)) as [Heq|Hne].
    - left. simpl in Ha. rewrite Hemail in Ha. simpl in Ha.
      split; [done|]. simpl. congruence.
    - right. split; [|split; [congruence|by exists x]].
      intros Hsame. apply Hne. f_equal.
      apply (NoDup_fmap_inj Row.email (Repository.rows repo)); try done.
      congruence. }
  split.
  - unfold findByEmail. rewrite findOne_find.
    destruct (List.find _ _) as [x'|] eqn:Hfind.
    + apply find_some in Hfind as [Hin Hx']. simpl in Hx'.
      apply String.eqb_eq in Hx'. apply list_elem_of_In in Hin.
      exists (Repository.hydrate public_select x'). split; [done|].
      change (Some (Row.id x') = Some id). f_equal.
      destruct (Hrows x' e Hin Hx') as [[_ ?]|(Hne & _ & x & Hx & Hxe)];
        [done|].
      exfalso. destruct Hmail as [Hmail|Hmail]; [congruence|].
      apply not_true_iff_false in Hmail. apply Hmail, email_taken_true.
      by exists x.
    + exfalso.
      assert (In (Repository.merge now ent dob r)
                ((fun x => if Row.id x =? Row.id r
                           then Repository.merge now ent dob x else x)
                   <$> Repository.rows repo)) as Hin.
      { apply list_elem_of_In, list_elem_of_fmap. exists r.
        by rewrite Z.eqb_refl. }
      pose proof (find_none _ _ Hfind _ Hin) as Hn. simpl in Hn.
      rewrite Hemail in Hn. simpl in Hn. by rewrite String.eqb_refl in Hn.
  - intros Hne. unfold findByEmail. rewrite findOne_find.
    destruct (List.find _ _) as [x'|] eqn:Hfind; [|done]. exfalso.
    apply find_some in Hfind as [Hin Hx']. simpl in Hx'.
    apply String.eqb_eq in Hx'. apply list_elem_of_In in Hin.
    destruct (Hrows x' _ Hin Hx') as [[? _]|(? & _)]; congruence.
Qed.

Lemma update_email_then_findByEmail_witness :
  (exists u,
     findByEmail "jane@example.org"
       (snd (update 3000 2 Examples.new_email Examples.repo_two)) = Some u
     /\ User.id u = Some 2)
  /\ ("jane@example.org" <> Row.email Examples.row_jane ->
      findByEmail (Row.email Examples.row_jane)
        (snd (update 3000 2 Examples.new_email Examples.repo_two)) = None).
Proof.
  apply (update_email_then_findByEmail 3000 2 Examples.new_email
           "jane@example.org" Examples.repo_two _ Examples.row_jane
           (Repository.hydrate public_select
              (Row.mk 2 "Jane" "Smith" "jane@example.org" "OtherPass456?"
                      ["admin"] None None false 1500 3000))).
  - apply (bool_decide_unpack _). vm_compute. exact I.
  - reflexivity.
  - reflexivity.
  - reflexivity.
Defined.

End EmailUpdate.

(** ** More on [create] *)

Section CreateMore.

Import UsersService.

(** X21. The user a successful [create] hands back has the next
identifier of the sequence, the names, email and phone number of the
input, the roles of the input or ["user"], a [dateOfBirth] made from the
input's unless that is missing or empty, [isActive] true and both
timestamps at the time of the call; the sequence advances by one. *)
Theorem create_returns_input
    (now : Z) (d : CreateUserDto.t) (repo repo' : Repository.t)
    (u : User.t) :
  create now d repo = (Return u, repo') ->
  User.id u = Some (Repository.nextId repo)
  /\ User.firstName u = Some (CreateUserDto.firstName d)
  /\ User.lastName u = Some (CreateUserDto.lastName d)
  /\ User.email u = Some (CreateUserDto.email d)
  /\ User.phoneNumber u = CreateUserDto.phoneNumber d
  /\ User.roles u = Some (default ["user"] (CreateUserDto.roles d))
  /\ User.dateOfBirth u
     = match CreateUserDto.dateOfBirth d with
       | Some s => if String.eqb s "" then None
                   else Some (DateObject (DateOfString s))
       | None => None
       end
  /\ User.isActive u = Some true
  /\ User.createdAt u = Some (DateOfTime now)
  /\ User.updatedAt u = Some (DateOfTime now)
  /\ Repository.nextId repo' = Repository.nextId repo + 1.
Proof.
  intros H. apply create_Return in H as (_ & _ & -> & ->).
  repeat split.
  destruct d as [fn ln em pw rl dob ph]. 
  change (DateObject
            <$> (if truthy_string dob then DateOfString <$> dob else None)
          = match dob with
            | Some s => if String.eqb s "" then None
                        else Some (DateObject (DateOfString s))
            | None => None
            end).
  destruct dob as [s|]; [|done]. simpl. by destruct (String.eqb s "").
Qed.

Lemma create_returns_input_witness :
  User.id Examples.view_john = Some (Repository.nextId Repository.empty)
  /\ User.firstName Examples.view_john
     = Some (CreateUserDto.firstName Examples.john)
  /\ User.lastName Examples.view_john
     = Some (CreateUserDto.lastName Examples.john)
  /\ User.email Examples.view_john
     = Some (CreateUserDto.email Examples.john)
  /\ User.phoneNumber Examples.view_john
     = CreateUserDto.phoneNumber Examples.john
  /\ User.roles Examples.view_john
     = Some (default ["user"] (CreateUserDto.roles Examples.john))
  /\ User.dateOfBirth Examples.view_john
     = match CreateUserDto.dateOfBirth Examples.john with
       | Some s => if String.eqb s "" then None
                   else Some (DateObject (DateOfString s))
       | None => None
       end
  /\ User.isActive Examples.view_john = Some true
  /\ User.createdAt Examples.view_john = Some (DateOfTime 1000)
  /\ User.updatedAt Examples.view_john = Some (DateOfTime 1000)
  /\ Repository.nextId Examples.repo_john
     = Repository.nextId Repository.empty + 1.
Proof.
  apply (create_returns_input 1000 Examples.john Repository.empty).
  reflexivity.
Defined.



End CreateMore.

(** ** More on the password rule and the pipe *)

Section RuleAndPipe.

Import UsersService.

Lemma length_list_ascii (s : string) :
  length (list_ascii_of_string s) = String.length s.
Proof. induction s as [|c s IH]; simpl; congruence. Qed.

Lemma classes_apart (c : ascii) :
  (in_range "A" "Z" c && in_range "a" "z" c
   || in_range "A" "Z" c && in_range "0" "9" c
   || in_range "A" "Z" c && in_chars specialChars c
   || in_range "a" "z" c && in_range "0" "9" c
   || in_range "a" "z" c && in_chars specialChars c
   || in_range "0" "9" c && in_chars specialChars c) = false.
Proof. by_cases_on_ascii c. Qed.

(** X23. A password that passes [isPasswordStrong] has at least four
characters: the four classes have no character in common. *)
Theorem strong_password_length (password : string) :
  isPasswordStrong password = true ->
  (4 <= String.length password)%nat.
Proof.
  unfold isPasswordStrong, test_class. rewrite <- length_list_ascii.
  rewrite !andb_true_iff, !existsb_exists.
  intros [[[(a & Ha & Hau) (b & Hb & Hbl)] (c & Hc & Hcd)] (e & He & Hes)].
  change (length [a; b; c; e] <= length (list_ascii_of_string password))%nat.
  apply List.NoDup_incl_length.
  - pose proof (classes_apart a) as Pa. pose proof (classes_apart b) as Pb.
    pose proof (classes_apart c) as Pc.
    rewrite Hau in Pa. rewrite Hbl in Pb. rewrite Hcd in Pc. simpl in *.
    repeat constructor; simpl; intros H;
      repeat (destruct H as [H|H]; [subst|]); try done;
      rewrite ?Hau, ?Hbl, ?Hcd, ?Hes in *; simpl in *;
      rewrite ?orb_true_r in *; discriminate.
  - intros x Hx. simpl in Hx.
    repeat (destruct Hx as [<-|Hx]; [done|]). done.
Qed.

Lemma strong_password_length_witness :
  (4 <= String.length "SecurePass123!")%nat.
Proof.
  apply (strong_password_length "SecurePass123!"). reflexivity.
Defined.

(** X24. Strength only depends on which characters occur: a password
that has every character of a strong password is strong.  So adding
characters anywhere never makes a strong password weak. *)
Theorem strong_password_superset (s t : string) :
  (forall c, c ∈ list_ascii_of_string s -> c ∈ list_ascii_of_string t) ->
  isPasswordStrong s = true ->
  isPasswordStrong t = true.
Proof.
  intros Hsub. unfold isPasswordStrong, test_class.
  rewrite !andb_true_iff, !existsb_exists.
  intros [[[(a & Ha & Hau) (b & Hb & Hbl)] (c & Hc & Hcd)] (e & He & Hes)].
  repeat split; eexists; (split; [|eassumption]);
    by apply list_elem_of_In, Hsub, list_elem_of_In.
Qed.

Lemma strong_password_superset_witness :
  isPasswordStrong "xx-SecurePass123!-yy" = true.
Proof.
  apply (strong_password_superset "SecurePass123!").
  - intros c Hc. apply (bool_decide_unpack _).
    revert c Hc. apply list.Forall_forall.
    apply (bool_decide_unpack _). vm_compute. exact I.
  - reflexivity.
Defined.



End RuleAndPipe.

(** ** Writes that keep the users *)

Section Frames.

Import UsersService.

(** The table after [update]: as it was, or with the rows of one
identifier rewritten. *)
Lemma update_table (now id : Z) (d : UpdateUserDto.t) (repo : Repository.t) :
  snd (update now id d repo) = repo
  \/ exists r0 e dob,
       snd (update now id d repo)
       = Repository.mk
           ((fun x => if Row.id x =? Row.id r0
                      then Repository.merge now e dob x else x)
              <$> Repository.rows repo)
           (Repository.nextId repo).
Proof.
  destruct (Repository.row_of id repo) as [r|] eqn:Hrow.
  - pose proof (row_of_Some _ _ _ Hrow) as [_ Hid].
    destruct (update now id d repo) as [[v|ex] repo'] eqn:Hup.
    + destruct (update_saves _ _ _ _ _ _ _ Hrow Hup)
        as (e & u & Hs & Hide & _ & _).
      rewrite <- Hid in Hrow.
      destruct (save_loaded_rows _ _ _ _ _ _ Hrow Hide Hs)
        as (dob & -> & _).
      right. by eexists r, e, dob.
    + left. revert Hup. unfold update.
      repeat case_match; intros [= ? ?]; by subst.
  - left. unfold update. by rewrite findOne_id, Hrow.
Qed.

Lemma set_active_table (b : bool) (now id : Z) (repo : Repository.t) :
  snd (Spec.set_active b now id repo) = repo
  \/ exists r0 e dob,
       snd (Spec.set_active b now id repo)
       = Repository.mk
           ((fun x => if Row.id x =? Row.id r0
                      then Repository.merge now e dob x else x)
              <$> Repository.rows repo)
           (Repository.nextId repo).
Proof.
  destruct (Repository.row_of id repo) as [r|] eqn:Hrow.
  - pose proof (row_of_Some _ _ _ Hrow) as [_ Hid].
    destruct (set_active_Return b now id repo r Hrow)
      as (repo' & Heq & _ & _).
    destruct (set_active_saves b _ _ _ _ _ _ Hrow Heq)
      as (e & u & Hs & Hide & _ & _).
    rewrite <- Hid in Hrow.
    destruct (save_loaded_rows _ _ _ _ _ _ Hrow Hide Hs)
      as (dob & -> & _).
    right. exists r, e, dob. by rewrite Heq.
  - left. destruct b; simpl; unfold activate, deactivate;
      by rewrite findOne_id, Hrow.
Qed.

Lemma rewritten_ids (i now : Z) (e : User.t) (dob : option JsDate)
    (repo : Repository.t) (n : Z) :
  User.id <$> findAll
    (Repository.mk
       ((fun x => if Row.id x =? i then Repository.merge now e dob x else x)
          <$> Repository.rows repo) n)
  = User.id <$> findAll repo.
Proof.
  rewrite !findAll_rows. simpl. rewrite <- !list_fmap_compose.
  apply list_fmap_ext. intros ? x _. simpl.
  by destruct (Row.id x =? i).
Qed.

(** X26. [update], [deactivate] and [activate] neither add nor remove a
user, whether they succeed or not: [findAll] lists the same identifiers
after the call as before it. *)
Theorem writes_keep_the_users
    (now id : Z) (d : UpdateUserDto.t) (repo : Repository.t) :
  User.id <$> findAll (snd (update now id d repo))
  ≡ₚ User.id <$> findAll repo
  /\ User.id <$> findAll (snd (deactivate now id repo))
     ≡ₚ User.id <$> findAll repo
  /\ User.id <$> findAll (snd (activate now id repo))
     ≡ₚ User.id <$> findAll repo.
Proof.
  split; [|split].
  - destruct (update_table now id d repo) as [->|(r0 & e & dob & ->)];
      [done|by rewrite rewritten_ids].
  - destruct (set_active_table false now id repo)
      as [H|(r0 & e & dob & H)]; simpl in H; rewrite H;
      [done|by rewrite rewritten_ids].
  - destruct (set_active_table true now id repo)
      as [H|(r0 & e & dob & H)]; simpl in H; rewrite H;
      [done|by rewrite rewritten_ids].
Qed.



Lemma update_saves_password (now id : Z) (d : UpdateUserDto.t)
    (repo repo' : Repository.t) (v : User.t) (r : Row.t) :
  Repository.row_of id repo = Some r ->
  update now id d repo = (Return v, repo') ->
  exists e u,
    Repository.save now e repo = inr (u, repo')
    /\ User.id e = Some (Row.id r)
    /\ User.email e
       = Some (default (Row.email r) (UpdateUserDto.email d))
    /\ User.password e = UpdateUserDto.password d.
Proof.
  intros Hrow. unfold update. rewrite findOne_id, Hrow. simpl.
  rewrite hydrate_default.
  match goal with |- context [if ?c then _ else _] => destruct c end;
    [discriminate|].
  destruct (Repository.save _ _ _) as [|[u repo'']] eqn:Hs; [discriminate|].
  intros [= _ <-]. eexists _, _. split; [exact Hs|].
  destruct d as [fn ln em pw rl dob ph act]. simpl.
  destruct dob as [s|]; [destruct (negb _)|]; simpl;
    by destruct em, pw.
Qed.

(** The first row with the email of a user just rewritten is a row of
that user. *)
Lemma find_rewritten_by_email (now : Z) (ent : User.t)
    (dob : option JsDate) (repo : Repository.t) (r : Row.t) (em : string) :
  Spec.emails_unique repo ->
  r ∈ Repository.rows repo ->
  User.email ent = Some em ->
  em = Row.email r \/ Repository.email_taken em repo = false ->
  exists x,
    Row.id x = Row.id r
    /\ List.find (Repository.matches (Some (Repository.WhereEmail em)))
         ((fun x => if Row.id x =? Row.id r
                    then Repository.merge now ent dob x else x)
            <$> Repository.rows repo)
       = Some (Repository.merge now ent dob x).
Proof.
  intros Hems Hr Hent Hmail.
  destruct (List.find _ _) as [x'|] eqn:Hfind.
  - apply find_some in Hfind as [Hin Hx']. simpl in Hx'.
    apply String.eqb_eq in Hx'.
    apply list_elem_of_In, list_elem_of_fmap in Hin as (x & -> & Hx).
    destruct (Z.eqb_spec (Row.id x) (Row.id r)) as [Heq|Hne];
      [by exists x|].
    exfalso. destruct Hmail as [Hmail|Hmail].
    + apply Hne. f_equal.
      apply (NoDup_fmap_inj Row.email (Repository.rows repo)); try done.
      congruence.
    + apply not_true_iff_false in Hmail. apply Hmail, email_taken_true.
      by exists x.
  - exfalso.
    assert (In (Repository.merge now ent dob r)
              ((fun x => if Row.id x =? Row.id r
                         then Repository.merge now ent dob x else x)
                 <$> Repository.rows repo)) as Hin.
    { apply list_elem_of_In, list_elem_of_fmap. exists r.
      by rewrite Z.eqb_refl. }
    pose proof (find_none _ _ Hfind _ Hin) as Hn. simpl in Hn.
    rewrite Hent in Hn. simpl in Hn. by rewrite String.eqb_refl in Hn.
Qed.

(** X28. After a successful [update] that carries a password, the lookup
for authentication by the email the user then has returns that user with
the new password, as given.  The table is one where no two users share
an email. *)
Theorem update_password_then_auth
    (now id : Z) (d : UpdateUserDto.t) (p : string)
    (repo repo' : Repository.t) (r : Row.t) (v : User.t) :
  Spec.emails_unique repo ->
  Repository.row_of id repo = Some r ->
  UpdateUserDto.password d = Some p ->
  update now id d repo = (Return v, repo') ->
  exists a,
    findByEmailForAuth
      (default (Row.email r) (UpdateUserDto.email d)) repo' = Some a
    /\ User.id a = Some id
    /\ User.password a = Some p.
Proof.
  intros Hems Hrow Hp Hup.
  pose proof (row_of_Some _ _ _ Hrow) as [Hr Hid].
  destruct (update_saves_password _ _ _ _ _ _ _ Hrow Hup)
    as (ent & u0 & Hs & Hide & Hemail & Hpw).
  rewrite <- Hid in Hrow.
  destruct (save_loaded_rows _ _ _ _ _ _ Hrow Hide Hs)
    as (dob & -> & Hmail).
  rewrite Hemail in Hmail. simpl in Hmail.
  destruct (find_rewritten_by_email now ent dob repo r _ Hems Hr Hemail)
    as (x & Hx & Hfind).
  { destruct Hmail; [by left|by right]. }
  unfold findByEmailForAuth. rewrite findOne_find.
  cbn [Repository.rows]. rewrite Hfind. eexists. split; [reflexivity|].
  split.
  - change (Some (Row.id x) = Some id). congruence.
  - change (Some (default (Row.password x) (User.password ent)) = Some p).
    by rewrite Hpw, Hp.
Qed.

Lemma update_password_then_auth_witness :
  exists a,
    findByEmailForAuth
      (default (Row.email Examples.row_john) None)
      (snd (update 3000 1
              (UpdateUserDto.mk None None None (Some "weak") None None None
                                None)
              Examples.repo_two)) = Some a
    /\ User.id a = Some 1
    /\ User.password a = Some "weak".
Proof.
  apply (update_password_then_auth 3000 1
           (UpdateUserDto.mk None None None (Some "weak") None None None
                             None)
           "weak" Examples.repo_two _ Examples.row_john
           (Repository.hydrate public_select
              (Row.set_updatedAt 3000
                 (Row.set_password "weak" Examples.row_john)))).
  - apply (bool_decide_unpack _). vm_compute. exact I.
  - reflexivity.
  - reflexivity.
  - reflexivity.
Defined.

End Frames.
